(** * Hypothesis bookkeeping of the semantic decoding generators

    A shallow embedding of [src/generators/data_structures.py]: the
    dataclasses that carry syntactic and semantic hypotheses, their
    dunder methods, and the part of the Python and PyTorch run time
    those methods rely on.  The aggregation engine and the continuation
    state store, which the repository's experiment scripts import but
    which have no source file here, are modelled from the specification
    in a separate module. *)

From Stdlib Require Import String List ZArith Bool Lia Permutation Floats.
From Stdlib Require Import DecimalString.
Import ListNotations.

Local Open Scope Z_scope.
Set Warnings "-inexact-float".

(* ------------------------------------------------------------------ *)
(** ** The slice of the Python run time the dataclasses use *)

Module Py.

Inductive exception : Type :=
| TypeError
| IndexError.

Inductive result (A : Type) : Type :=
| Ok (v : A)
| Raise (e : exception).
Arguments Ok {A} v.
Arguments Raise {A} e.

Definition bind {A B : Type} (r : result A) (k : A -> result B) : result B :=
  match r with
  | Ok v => k v
  | Raise e => Raise e
  end.

(** Values that reach the builtins below. *)
Inductive object : Type :=
| Int (n : Z)
| Float (x : float)
| Str (s : string).

(** [t[i]] on a tuple: a negative index counts from the end, and an
    index outside the tuple raises [IndexError]. *)
Definition tuple_getitem {A : Type} (t : list A) (i : Z) : result A :=
  let n := Z.of_nat (length t) in
  let j := if i <? 0 then i + n else i in
  if (j <? 0) || (n <=? j) then Raise IndexError
  else match nth_error t (Z.to_nat j) with
       | Some x => Ok x
       | None => Raise IndexError
       end.

(** The builtin [len]: numbers have no [__len__]. *)
Definition len (o : object) : result Z :=
  match o with
  | Int _ => Raise TypeError
  | Float _ => Raise TypeError
  | Str s => Ok (Z.of_nat (String.length s))
  end.

(** Rich comparison.  A class may define [__lt__] and [__gt__]; the
    ones it leaves out are inherited from [object] and answer
    [NotImplemented]. *)
Inductive richcmp : Type :=
| Answer (b : bool)
| NotImplemented.

Record ordering (T : Type) : Type := {
  tp_lt : option (T -> T -> richcmp);
  tp_gt : option (T -> T -> richcmp)
}.
Arguments tp_lt {T} _.
Arguments tp_gt {T} _.

Definition slot {T : Type} (m : option (T -> T -> richcmp)) : T -> T -> richcmp :=
  match m with
  | Some f => f
  | None => fun _ _ => NotImplemented
  end.

(** [a < b] for two instances of one class: [a.__lt__(b)] first, the
    reflected [b.__gt__(a)] next, [TypeError] when both decline. *)
Definition less_than {T : Type} (cls : ordering T) (a b : T) : result bool :=
  match slot (tp_lt cls) a b with
  | Answer r => Ok r
  | NotImplemented =>
      match slot (tp_gt cls) b a with
      | Answer r => Ok r
      | NotImplemented => Raise TypeError
      end
  end.

(** Hashing on a 64-bit build: [Py_uhash_t] arithmetic wraps at 2^64
    and the result is read back as a signed [Py_hash_t]. *)
Definition uhash (z : Z) : Z := z mod 2 ^ 64.

Definition shash (z : Z) : Z :=
  let u := uhash z in if u <? 2 ^ 63 then u else u - 2 ^ 64.

Definition XXPRIME_1 : Z := 11400714785074694791.
Definition XXPRIME_2 : Z := 14029467366897019727.
Definition XXPRIME_5 : Z := 2870177450012600261.

Definition XXROTATE (x : Z) : Z :=
  uhash (Z.lor (Z.shiftl x 31) (Z.shiftr x 33)).

Definition tuplehash_round (acc lane : Z) : Z :=
  let acc := uhash (acc + uhash lane * XXPRIME_2) in
  let acc := XXROTATE acc in
  uhash (acc * XXPRIME_1).

(** [hash] of a tuple, from the hashes of its items. *)
Definition tuplehash (lanes : list Z) : Z :=
  let acc := fold_left tuplehash_round lanes XXPRIME_5 in
  let acc :=
    uhash (acc + Z.lxor (Z.of_nat (length lanes)) (Z.lxor XXPRIME_5 3527539)) in
  if acc =? 2 ^ 64 - 1 then 1546275796 else shash acc.

(** The builtin [hash] on an object whose [__hash__] returned [h], for
    [h] within the range of [Py_hash_t] (an address is): the value is
    kept, except that -1 is reserved for errors. *)
Definition hash_of_dunder (h : Z) : Z :=
  if h =? -1 then -2 else h.

End Py.

(* ------------------------------------------------------------------ *)
(** ** Tensors *)

Module torch.

(** A tensor is its size and its elements in row-major order. *)
Record Tensor (A : Type) : Type := {
  shape : list nat;
  data : list A
}.
Arguments shape {A} _.
Arguments data {A} _.

Definition scalar {A : Type} (x : A) : Tensor A :=
  {| shape := []; data := [x] |}.

Definition tensor1 {A : Type} (xs : list A) : Tensor A :=
  {| shape := [length xs]; data := xs |}.

Fixpoint list_eqb {A : Type} (eqb : A -> A -> bool) (xs ys : list A) : bool :=
  match xs, ys with
  | [], [] => true
  | x :: xs', y :: ys' => eqb x y && list_eqb eqb xs' ys'
  | _, _ => false
  end.

(** [torch.equal]: same size and same elements. *)
Definition equal (a b : Tensor Z) : bool :=
  list_eqb Nat.eqb (shape a) (shape b) && list_eqb Z.eqb (data a) (data b).

(** [t.shape[-1]] *)
Definition shape_last {A : Type} (t : Tensor A) : Py.result Z :=
  Py.tuple_getitem (map Z.of_nat (shape t)) (-1).

(** [t.flatten()]: one dimension holding every element. *)
Definition flatten {A : Type} (t : Tensor A) : Tensor A :=
  {| shape := [length (data t)]; data := data t |}.

(** The size of the last dimension, 0 for a tensor without one. *)
Definition last_dim {A : Type} (t : Tensor A) : nat := last (shape t) 0%nat.

Fixpoint take_rows {A : Type} (fuel width n : nat) (xs : list A) : list A :=
  match fuel with
  | O => []
  | S fuel' =>
      match xs with
      | [] => []
      | _ :: _ =>
          firstn n (firstn width xs) ++ take_rows fuel' width n (skipn width xs)
      end
  end.

(** [t[..., :n]]: the first [n] entries of every row of the last
    dimension, all of the row when it has fewer. *)
Definition narrow_last {A : Type} (n : nat) (t : Tensor A) : Tensor A :=
  match rev (shape t) with
  | [] => t
  | width :: outer =>
      {| shape := rev (Nat.min n width :: outer);
         data := take_rows (length (data t)) width n (data t) |}
  end.

(** A tensor as a Python object: [id] is the address it lives at. *)
Record TensorObject : Type := {
  id : Z;
  value : Tensor Z
}.

(** The allocator seen from one call: [heap k] is the address given
    to the [k]-th object the call creates. *)
Definition Heap : Type := nat -> Z.

Fixpoint unbind_from (heap : Heap) (k : nat) (xs : list Z) : list TensorObject :=
  match xs with
  | [] => []
  | x :: xs' => {| id := heap k; value := scalar x |} :: unbind_from heap (S k) xs'
  end.

(** Iterating a one-dimensional tensor ([Tensor.__iter__] unbinds it
    along dimension 0): every element comes out as a new
    zero-dimensional tensor object. *)
Definition iter (heap : Heap) (t : Tensor Z) : list TensorObject :=
  unbind_from heap 0 (data t).

(** [Tensor.__hash__] is [id(self)]. *)
Definition Tensor__hash__ (o : TensorObject) : Z := id o.

End torch.

(* ------------------------------------------------------------------ *)
(** ** The dataclasses of [data_structures.py]

    Every class is a module: [t] is the record of its fields, [__init__]
    the constructor the [@dataclass] decorator generates (a field with a
    default takes an optional argument), and the dunder methods are the
    ones written in the class body. *)

Definition past_key_values_t : Type :=
  list (torch.Tensor float * torch.Tensor float).

Module OriginalContinuationData.

Record t : Type := {
  sequences : torch.Tensor Z;
  scores : list (torch.Tensor float);
  transition_scores : list (torch.Tensor float);
  beam_indices : torch.Tensor Z;
  past_key_values : past_key_values_t;
  attention_mask : torch.Tensor Z;
  last_beam_scores : torch.Tensor float
}.

End OriginalContinuationData.

Module SemanticData.

Record t : Type := {
  unique_key : string;
  start : Z;
  end_ : Z;
  _type : string;
  amount_of_chunks : option Z;
  other : option Py.object;
  has_semantic_data : bool
}.

Definition __init__ (unique_key : string) (start end_ : Z) (_type : string)
    (amount_of_chunks : option Z) (other : option Py.object)
    (has_semantic_data : option bool) : t :=
  {| unique_key := unique_key;
     start := start;
     end_ := end_;
     _type := _type;
     amount_of_chunks := amount_of_chunks;
     other := other;
     has_semantic_data :=
       match has_semantic_data with
       | Some b => b
       | None => true
       end |}.

End SemanticData.

(** The abstract base of the sliced continuation data.  The unshortened
    variant subclasses it without adding a field. *)
Module SyntacticHypothesisData.

Record t : Type := {
  sequences : torch.Tensor Z;
  transition_scores : torch.Tensor float;
  last_beam_scores : torch.Tensor float;
  past_key_values : past_key_values_t;
  attention_mask : torch.Tensor Z
}.

Definition __len__ (self : t) : Py.result Z :=
  torch.shape_last (sequences self).

End SyntacticHypothesisData.

Module SyntacticHypothesisUnshortenedContinuationData.

Definition t : Type := SyntacticHypothesisData.t.

End SyntacticHypothesisUnshortenedContinuationData.

(** The subclass adds [unshortened_data] to the inherited fields, which
    are kept together as [base]. *)
Module SyntacticHypothesisContinuationData.

Record t : Type := {
  base : SyntacticHypothesisData.t;
  unshortened_data : option SyntacticHypothesisUnshortenedContinuationData.t
}.

Definition sequences (self : t) : torch.Tensor Z :=
  SyntacticHypothesisData.sequences (base self).

Definition __len__ (self : t) : Py.result Z :=
  SyntacticHypothesisData.__len__ (base self).

End SyntacticHypothesisContinuationData.

Module SyntacticHypothesisMetaData.

Record t : Type := {
  tokens_shortened : Z
}.

End SyntacticHypothesisMetaData.

Module SyntacticHypothesis.

Record t : Type := {
  aggregation_key : string;
  semantic_source_hypothesis_idx : Z;
  syntactic_source_hypothesis_idx : Z;
  hypothesis_idx : Z;
  path_score : torch.Tensor float;
  normalized_path_score : torch.Tensor float;
  semantic_data : SemanticData.t;
  syntactic_hypothesis : SyntacticHypothesisContinuationData.t;
  metadata : SyntacticHypothesisMetaData.t;
  is_aggregation_key_complete : bool;
  is_normalized_path_score_calculated : bool
}.

Definition __init__ (aggregation_key : string)
    (semantic_source_hypothesis_idx syntactic_source_hypothesis_idx hypothesis_idx : Z)
    (path_score normalized_path_score : torch.Tensor float)
    (semantic_data : SemanticData.t)
    (syntactic_hypothesis : SyntacticHypothesisContinuationData.t)
    (metadata : SyntacticHypothesisMetaData.t)
    (is_aggregation_key_complete is_normalized_path_score_calculated : option bool) : t :=
  {| aggregation_key := aggregation_key;
     semantic_source_hypothesis_idx := semantic_source_hypothesis_idx;
     syntactic_source_hypothesis_idx := syntactic_source_hypothesis_idx;
     hypothesis_idx := hypothesis_idx;
     path_score := path_score;
     normalized_path_score := normalized_path_score;
     semantic_data := semantic_data;
     syntactic_hypothesis := syntactic_hypothesis;
     metadata := metadata;
     is_aggregation_key_complete :=
       match is_aggregation_key_complete with
       | Some b => b
       | None => false
       end;
     is_normalized_path_score_calculated :=
       match is_normalized_path_score_calculated with
       | Some b => b
       | None => false
       end |}.

Definition sequences (self : t) : torch.Tensor Z :=
  SyntacticHypothesisContinuationData.sequences (syntactic_hypothesis self).

Definition __len__ (self : t) : Py.result Z :=
  torch.shape_last (sequences self).

Definition __eq__ (self other : t) : bool :=
  torch.equal (sequences self) (sequences other).

(** [hash(tuple(self.syntactic_hypothesis.sequences.flatten()))]: the
    tuple is filled by iterating the flattened tensor, so its items
    are tensor objects, and each of them hashes to its address. *)
Definition __hash__ (heap : torch.Heap) (self : t) : Z :=
  let items := torch.iter heap (torch.flatten (sequences self)) in
  Py.tuplehash (map (fun o => Py.hash_of_dunder (torch.Tensor__hash__ o)) items).

(** [self.path_score < other.path_score] on the one-element score
    tensors: the ranking by path score. *)
Definition path_score_below (self other : t) : bool :=
  match torch.data (path_score self), torch.data (path_score other) with
  | [x], [y] => PrimFloat.ltb x y
  | _, _ => false
  end.

(** The class body defines no comparison other than [__eq__], and
    [@dataclass] is applied without [order=True]. *)
Definition ordering : Py.ordering t :=
  {| Py.tp_lt := None; Py.tp_gt := None |}.

End SyntacticHypothesis.

Module SemanticHypothesis.

Record t : Type := {
  aggregation_key : string;
  score : float;
  syntactic_hypotheses : list SyntacticHypothesis.t;
  source_data : option OriginalContinuationData.t
}.

Definition __len__ (self : t) : Z :=
  Z.of_nat (length (syntactic_hypotheses self)).

Definition __lt__ (self other : t) : bool :=
  PrimFloat.ltb (score self) (score other).

Definition ordering : Py.ordering t :=
  {| Py.tp_lt := Some (fun self other => Py.Answer (__lt__ self other));
     Py.tp_gt := None |}.

End SemanticHypothesis.

(** The legacy continuation record. *)
Module ContinuationData.

Record t : Type := {
  sequences : torch.Tensor Z;
  transition_scores : torch.Tensor float;
  last_beam_scores : torch.Tensor float;
  past_key_values : past_key_values_t;
  attention_mask : torch.Tensor Z;
  original_data : option OriginalContinuationData.t
}.

(** [len(self.sequences.shape[-1])]: the argument of [len] is the
    integer size of the last dimension. *)
Definition __len__ (self : t) : Py.result Z :=
  Py.bind (torch.shape_last (sequences self)) (fun n => Py.len (Py.Int n)).

End ContinuationData.

(* ------------------------------------------------------------------ *)
(** ** The operations on hypotheses

    The continuation state store and the aggregation engine work on the
    dataclasses above, but their code is in no source file of the
    repository; the definitions below follow the specification. *)

(** Modelled from the spec: the error kinds of its section 7; no source
    file declares them. *)
Inductive ErrorKind : Type :=
| ShapeMismatch
| InvalidLength
| IncompleteAggregationKey
| EmptyInput.

(** Modelled from the spec: the life cycle of a syntactic hypothesis
    (section 4.3), which the source keeps only as the two flags of the
    dataclass. *)
Inductive Lifecycle : Type :=
| Created
| KeyAssigned
| Normalized
| Aggregated.

(** Modelled from the spec: the state the flags of a hypothesis that is
    not yet a member of a group stand for; the key is assigned before the
    score is normalised. *)
Definition lifecycle_of_flags (h : SyntacticHypothesis.t) : Lifecycle :=
  if negb (SyntacticHypothesis.is_aggregation_key_complete h) then Created
  else if negb (SyntacticHypothesis.is_normalized_path_score_calculated h) then KeyAssigned
  else Normalized.

Module ContinuationStateStore.

Import SyntacticHypothesisContinuationData.

(** Modelled from the spec: [len(c.sequences)], the current decoded
    length; the store itself is missing from the sources. *)
Definition current_length (c : t) : nat :=
  torch.last_dim (sequences c).

(** Modelled from the spec: the truncation [shorten] applies to
    [sequences], [transition_scores] and [attention_mask]; the other
    fields stay. *)
Definition truncate (n : nat) (d : SyntacticHypothesisData.t) : SyntacticHypothesisData.t :=
  {| SyntacticHypothesisData.sequences :=
       torch.narrow_last n (SyntacticHypothesisData.sequences d);
     SyntacticHypothesisData.transition_scores :=
       torch.narrow_last n (SyntacticHypothesisData.transition_scores d);
     SyntacticHypothesisData.last_beam_scores :=
       SyntacticHypothesisData.last_beam_scores d;
     SyntacticHypothesisData.past_key_values :=
       SyntacticHypothesisData.past_key_values d;
     SyntacticHypothesisData.attention_mask :=
       torch.narrow_last n (SyntacticHypothesisData.attention_mask d) |}.

(** Modelled from the spec: [shorten(continuation, new_length)] of
    section 4.1, missing from the sources.  The full-length data the
    continuation holds moves into [unshortened_data], created when
    absent and overwritten when one is already there; a length beyond
    the current one is [InvalidLength]. *)
Definition shorten (c : t) (new_length : nat) : ErrorKind + t :=
  if Nat.ltb (current_length c) new_length then inl InvalidLength
  else inr {| base := truncate new_length (base c);
              unshortened_data := Some (base c) |}.

(** Modelled from the spec: [restore(continuation)] of section 4.1,
    missing from the sources: the unshortened form when there is one,
    else the input.  The unshortened form is the five data fields; as a
    continuation it holds no unshortened form of its own. *)
Definition restore (c : t) : t :=
  match unshortened_data c with
  | Some u => {| base := u; unshortened_data := None |}
  | None => c
  end.

End ContinuationStateStore.

Module AggregationEngine.

Definition key_of (h : SyntacticHypothesis.t) : string :=
  SyntacticHypothesis.aggregation_key h.

Definition has_key (k : string) (h : SyntacticHypothesis.t) : bool :=
  String.eqb (key_of h) k.

(** A partition: its key and its members in the order they arrived. *)
Definition partition : Type := (string * list SyntacticHypothesis.t)%type.

(** Modelled from the spec: one step of the stable partitioning of
    section 4.3 (the engine is missing from the sources): a hypothesis
    joins the end of the partition of its key, and a key not seen yet
    opens a partition after the existing ones. *)
Fixpoint add_to_partitions (h : SyntacticHypothesis.t) (parts : list partition)
    : list partition :=
  match parts with
  | [] => [(key_of h, [h])]
  | (k, members) :: rest =>
      if String.eqb k (key_of h) then (k, members ++ [h]) :: rest
      else (k, members) :: add_to_partitions h rest
  end.

(** Modelled from the spec: step 1 of [group], the hypotheses taken in
    input order. *)
Definition partition_by_key (H : list SyntacticHypothesis.t) : list partition :=
  fold_left (fun parts h => add_to_partitions h parts) H [].

Definition all_incomplete (members : list SyntacticHypothesis.t) : bool :=
  forallb (fun h => negb (SyntacticHypothesis.is_aggregation_key_complete h)) members.

Section Policy.

(** The aggregate score policy, which the spec leaves open. *)
Variable aggregate : list SyntacticHypothesis.t -> float.

Definition make_group (k : string) (members : list SyntacticHypothesis.t)
    : SemanticHypothesis.t :=
  {| SemanticHypothesis.aggregation_key := k;
     SemanticHypothesis.score := aggregate members;
     SemanticHypothesis.syntactic_hypotheses := members;
     SemanticHypothesis.source_data := None |}.

(** Modelled from the spec: merging one partition into a semantic
    hypothesis (steps 2 and 3 of [group]); a partition none of whose
    keys is complete is refused. *)
Definition merge (p : partition) : ErrorKind + SemanticHypothesis.t :=
  if all_incomplete (snd p) then inl IncompleteAggregationKey
  else inr (make_group (fst p) (snd p)).

Definition singleton (h : SyntacticHypothesis.t) : SemanticHypothesis.t :=
  make_group (key_of h) [h].

(** Modelled from the spec: a refused merge falls back to one
    singleton group per hypothesis (step 3 and section 7). *)
Definition groups_of_partition (p : partition) : list SemanticHypothesis.t :=
  match merge p with
  | inr g => [g]
  | inl _ => map singleton (snd p)
  end.

(** Modelled from the spec: [group(hypotheses)] of section 4.3,
    missing from the sources. *)
Definition group (H : list SyntacticHypothesis.t)
    : ErrorKind + list SemanticHypothesis.t :=
  match H with
  | [] => inl EmptyInput
  | _ :: _ => inr (flat_map groups_of_partition (partition_by_key H))
  end.

End Policy.

Definition differs_from (k : string) : string -> bool :=
  fun k' => negb (String.eqb k' k).

(** The keys of a list in the order of their first occurrence. *)
Fixpoint first_seen (ks : list string) : list string :=
  match ks with
  | [] => []
  | k :: rest => k :: filter (differs_from k) (first_seen rest)
  end.

(** What stable partitioning has to produce: for each of the keys [ks],
    the hypotheses of [H] with that key, in the order of [H]. *)
Definition parts_of (ks : list string) (H : list SyntacticHypothesis.t)
    : list partition :=
  map (fun k => (k, filter (has_key k) H)) ks.

Definition members_of (G : list SemanticHypothesis.t) : list SyntacticHypothesis.t :=
  concat (map SemanticHypothesis.syntactic_hypotheses G).

Definition group_has_key (k : string) (g : SemanticHypothesis.t) : bool :=
  String.eqb (SemanticHypothesis.aggregation_key g) k.

End AggregationEngine.

(* ------------------------------------------------------------------ *)
(** ** Sample values *)

Module Samples.

Definition no_tag : SemanticData.t :=
  SemanticData.__init__ "" 0 0 "" None None (Some false).

Definition tag (key : string) : SemanticData.t :=
  SemanticData.__init__ key 0 4 "PER" (Some 1) None None.

Definition data_of (tokens : list Z) : SyntacticHypothesisData.t :=
  {| SyntacticHypothesisData.sequences := torch.tensor1 tokens;
     SyntacticHypothesisData.transition_scores :=
       torch.tensor1 (map (fun _ => (-0.25)%float) tokens);
     SyntacticHypothesisData.last_beam_scores := torch.scalar (-0.5)%float;
     SyntacticHypothesisData.past_key_values := [];
     SyntacticHypothesisData.attention_mask := torch.tensor1 (map (fun _ => 1) tokens) |}.

Definition fresh (tokens : list Z) : SyntacticHypothesisContinuationData.t :=
  {| SyntacticHypothesisContinuationData.base := data_of tokens;
     SyntacticHypothesisContinuationData.unshortened_data := None |}.

Definition hyp (key : string) (sem_idx syn_idx idx : Z) (path : float)
    (tokens : list Z) (complete : bool) : SyntacticHypothesis.t :=
  SyntacticHypothesis.__init__ key sem_idx syn_idx idx
    (torch.scalar path) (torch.scalar path)
    (if complete then tag key else no_tag) (fresh tokens)
    {| SyntacticHypothesisMetaData.tokens_shortened := 0 |}
    (Some complete) None.

(** Two hypotheses with the same tokens, different scores and
    provenance. *)
Definition twin_a : SyntacticHypothesis.t := hyp "0-A" 0 0 0 (-0.5)%float [101; 2023] true.
Definition twin_b : SyntacticHypothesis.t := hyp "1-B" 1 3 1 (-0.125)%float [101; 2023] true.
Definition other_c : SyntacticHypothesis.t := hyp "0-A" 0 0 2 (-0.5)%float [101; 2024] true.

(** The allocator as two calls may meet it. *)
Definition heap_a : torch.Heap := fun k => 140000000000000 + 80 * Z.of_nat k.
Definition heap_b : torch.Heap := fun k => 140000000400000 + 80 * Z.of_nat k.

Definition legacy (seqs : torch.Tensor Z) : ContinuationData.t :=
  {| ContinuationData.sequences := seqs;
     ContinuationData.transition_scores := torch.tensor1 [];
     ContinuationData.last_beam_scores := torch.scalar (-0.5)%float;
     ContinuationData.past_key_values := [];
     ContinuationData.attention_mask := torch.tensor1 [];
     ContinuationData.original_data := None |}.

(** A continuation that was shortened once: one token is left of two. *)
Definition shortened_once : SyntacticHypothesisContinuationData.t :=
  {| SyntacticHypothesisContinuationData.base := data_of [101];
     SyntacticHypothesisContinuationData.unshortened_data := Some (data_of [101; 2023]) |}.

Definition score_of (h : SyntacticHypothesis.t) : float :=
  match torch.data (SyntacticHypothesis.path_score h) with
  | [x] => x
  | _ => neg_infinity
  end.

(** The maximum of the members' path scores, as an aggregate policy. *)
Definition max_policy (members : list SyntacticHypothesis.t) : float :=
  fold_right
    (fun h best => if PrimFloat.ltb best (score_of h) then score_of h else best)
    neg_infinity members.

(** The four hypotheses of the end-to-end scenario. *)
Definition h1 : SyntacticHypothesis.t := hyp "0-A" 0 0 0 (-0.1)%float [101; 2023] true.
Definition h2 : SyntacticHypothesis.t := hyp "0-A" 0 1 1 (-0.3)%float [101; 2024] true.
Definition h3 : SyntacticHypothesis.t := hyp "1-B" 1 0 2 (-0.2)%float [102; 2023] true.
Definition h4 : SyntacticHypothesis.t := hyp "1-B" 1 1 3 (-0.5)%float [102; 2024] true.

(** Two hypotheses without a semantic tag, around a tagged one. *)
Definition u1 : SyntacticHypothesis.t := hyp "" 0 0 0 (-0.1)%float [103] false.
Definition u2 : SyntacticHypothesis.t := hyp "" 0 1 2 (-0.2)%float [104] false.

Definition semantic (key : string) (score : float)
    (members : list SyntacticHypothesis.t) : SemanticHypothesis.t :=
  {| SemanticHypothesis.aggregation_key := key;
     SemanticHypothesis.score := score;
     SemanticHypothesis.syntactic_hypotheses := members;
     SemanticHypothesis.source_data := None |}.

End Samples.

(* ------------------------------------------------------------------ *)
(** ** More of the run time: reflected comparison and text *)

Module PyOrder.

(** [a > b] for two instances of one class: [a.__gt__(b)] first, the
    reflected [b.__lt__(a)] next, [TypeError] when both decline. *)
Definition greater_than {T : Type} (cls : Py.ordering T) (a b : T) : Py.result bool :=
  match Py.slot (Py.tp_gt cls) a b with
  | Py.Answer r => Py.Ok r
  | Py.NotImplemented =>
      match Py.slot (Py.tp_lt cls) b a with
      | Py.Answer r => Py.Ok r
      | Py.NotImplemented => Py.Raise Py.TypeError
      end
  end.

End PyOrder.

Module PyText.

(** [str(n)] of an integer. *)
Definition str_int (n : Z) : string := NilZero.string_of_int (Z.to_int n).

(** [s[:-1]]: the string without its last character. *)
Definition drop_last (s : string) : string :=
  String.substring 0 (String.length s - 1) s.

End PyText.

(** The [__repr__] methods of the continuation records.  How torch
    prints a tensor or a size is torch's business and comes in as
    [str_ints], [str_floats] and [str_size]. *)
Module Printing.

Section Formatters.

Variable str_ints : torch.Tensor Z -> string.
Variable str_floats : torch.Tensor float -> string.
Variable str_size : list nat -> string.

Local Open Scope string_scope.

(** The text both [__repr__] methods share, from [sequences] to
    [attention_mask]; [past_key_values[0]] is looked up for its length
    and again for the shape of its first tensor. *)
Definition fields_text (sequences : torch.Tensor Z)
    (transition_scores last_beam_scores : torch.Tensor float)
    (past_key_values : past_key_values_t) (attention_mask : torch.Tensor Z)
    : Py.result string :=
  let pkv_len_0 := Z.of_nat (List.length past_key_values) in
  Py.bind (Py.tuple_getitem past_key_values 0) (fun _ =>
  let pkv_len_1 := 2%Z in
  Py.bind (Py.tuple_getitem past_key_values 0) (fun layer =>
  let pkv_shape := torch.shape (fst layer) in
  Py.Ok ("ContinuationData(sequences=" ++ str_ints sequences
         ++ ", transition_scores=" ++ str_floats transition_scores
         ++ ", last_beam_scores=" ++ str_floats last_beam_scores
         ++ ", past_key_values=(Shape [" ++ PyText.str_int pkv_len_0
         ++ ", " ++ PyText.str_int pkv_len_1
         ++ ", " ++ str_size pkv_shape
         ++ ", attention_mask=" ++ str_ints attention_mask))).

(** [SyntacticHypothesisData.__repr__] *)
Definition SyntacticHypothesisData__repr__ (self : SyntacticHypothesisData.t)
    : Py.result string :=
  Py.bind
    (fields_text (SyntacticHypothesisData.sequences self)
       (SyntacticHypothesisData.transition_scores self)
       (SyntacticHypothesisData.last_beam_scores self)
       (SyntacticHypothesisData.past_key_values self)
       (SyntacticHypothesisData.attention_mask self))
    (fun text => Py.Ok (text ++ ")")).

Definition availability {A : Type} (o : option A) : string :=
  match o with
  | Some _ => "Available"
  | None => "None"
  end.

(** [SyntacticHypothesisContinuationData.__repr__]: the text of the
    superclass without its last character, then the new attribute. *)
Definition SyntacticHypothesisContinuationData__repr__
    (self : SyntacticHypothesisContinuationData.t) : Py.result string :=
  Py.bind
    (SyntacticHypothesisData__repr__ (SyntacticHypothesisContinuationData.base self))
    (fun base_repr =>
       Py.Ok (PyText.drop_last base_repr ++ ", unshortened_data="
              ++ availability (SyntacticHypothesisContinuationData.unshortened_data self)
              ++ ")")).

(** [ContinuationData.__repr__] of the legacy record. *)
Definition ContinuationData__repr__ (self : ContinuationData.t) : Py.result string :=
  Py.bind
    (fields_text (ContinuationData.sequences self)
       (ContinuationData.transition_scores self)
       (ContinuationData.last_beam_scores self)
       (ContinuationData.past_key_values self)
       (ContinuationData.attention_mask self))
    (fun text =>
       Py.Ok (text ++ ", original_data="
              ++ availability (ContinuationData.original_data self) ++ ")")).

End Formatters.

End Printing.

Module MoreSamples.

Definition show_ints (t : torch.Tensor Z) : string := "tensor".
Definition show_floats (t : torch.Tensor float) : string := "tensor".
Definition show_size (s : list nat) : string := "size".

(** One cached layer: a key and a value tensor for two positions. *)
Definition layer : torch.Tensor float * torch.Tensor float :=
  ({| torch.shape := [1; 1; 2; 1]%nat; torch.data := [0.5; 0.25]%float |},
   {| torch.shape := [1; 1; 2; 1]%nat; torch.data := [0.125; 1]%float |}).

Definition cached_data : SyntacticHypothesisData.t :=
  {| SyntacticHypothesisData.sequences := torch.tensor1 [101; 2023];
     SyntacticHypothesisData.transition_scores := torch.tensor1 [(-0.25)%float; (-0.25)%float];
     SyntacticHypothesisData.last_beam_scores := torch.scalar (-0.5)%float;
     SyntacticHypothesisData.past_key_values := [layer];
     SyntacticHypothesisData.attention_mask := torch.tensor1 [1; 1] |}.

Definition cached : SyntacticHypothesisContinuationData.t :=
  {| SyntacticHypothesisContinuationData.base := cached_data;
     SyntacticHypothesisContinuationData.unshortened_data := None |}.

Definition legacy_cached : ContinuationData.t :=
  {| ContinuationData.sequences := torch.tensor1 [101; 2023];
     ContinuationData.transition_scores := torch.tensor1 [(-0.25)%float; (-0.25)%float];
     ContinuationData.last_beam_scores := torch.scalar (-0.5)%float;
     ContinuationData.past_key_values := [layer];
     ContinuationData.attention_mask := torch.tensor1 [1; 1];
     ContinuationData.original_data := None |}.

End MoreSamples.

(* ------------------------------------------------------------------ *)
(** ** [deep_compare] of [src/generators/utils.py]

    The function walks dicts and lists; the values it is given are the
    ones a JSON document holds. *)

Module PyValue.

#[local] Set Warnings "-register-all".

(** A dict is its entries in insertion order; its keys are pairwise
    distinct. *)
Inductive value : Type :=
| VNone
| VBool (b : bool)
| VInt (n : Z)
| VFloat (x : float)
| VStr (s : string)
| VList (items : list value)
| VDict (entries : list (string * value)).

Inductive pytype : Type :=
| NoneType
| bool_
| int_
| float_
| str_
| list_
| dict_.

(** [type(obj)] *)
Definition type_of (obj : value) : pytype :=
  match obj with
  | VNone => NoneType
  | VBool _ => bool_
  | VInt _ => int_
  | VFloat _ => float_
  | VStr _ => str_
  | VList _ => list_
  | VDict _ => dict_
  end.

Definition pytype_eqb (t1 t2 : pytype) : bool :=
  match t1, t2 with
  | NoneType, NoneType | bool_, bool_ | int_, int_ | float_, float_
  | str_, str_ | list_, list_ | dict_, dict_ => true
  | _, _ => false
  end.

Definition keys (d : list (string * value)) : list string := map fst d.

(** [key in d] *)
Definition has_key (d : list (string * value)) (key : string) : bool :=
  existsb (String.eqb key) (keys d).

(** [d[key]], [None] standing for the [KeyError]. *)
Fixpoint getitem (d : list (string * value)) (key : string) : option value :=
  match d with
  | [] => None
  | (k, v) :: rest => if String.eqb key k then Some v else getitem rest key
  end.

(** [d1.keys() == d2.keys()]: as many keys, and every key of [d1] is a
    key of [d2]. *)
Definition keys_equal (d1 d2 : list (string * value)) : bool :=
  Nat.eqb (length d1) (length d2) && forallb (has_key d2) (keys d1).

(** [obj1 == obj2] for two values of one type that is neither dict nor
    list. *)
Definition scalar_eq (obj1 obj2 : value) : bool :=
  match obj1, obj2 with
  | VNone, VNone => true
  | VBool b1, VBool b2 => Bool.eqb b1 b2
  | VInt n1, VInt n2 => Z.eqb n1 n2
  | VFloat x1, VFloat x2 => PrimFloat.eqb x1 x2
  | VStr s1, VStr s2 => String.eqb s1 s2
  | _, _ => false
  end.

(** [deep_compare(obj1, obj2)].  The loop over the keys of [obj1] runs
    over its entries: [obj1[key]] is the value of the entry. *)
Fixpoint deep_compare (obj1 obj2 : value) {struct obj1} : bool :=
  if negb (pytype_eqb (type_of obj1) (type_of obj2)) then false
  else
    match obj1, obj2 with
    | VDict d1, VDict d2 =>
        if negb (keys_equal d1 d2) then false
        else
          (fix all_keys (entries : list (string * value)) : bool :=
             match entries with
             | [] => true
             | (key, v1) :: rest =>
                 match getitem d2 key with
                 | Some v2 => deep_compare v1 v2 && all_keys rest
                 | None => false
                 end
             end) d1
    | VList l1, VList l2 =>
        if negb (Nat.eqb (length l1) (length l2)) then false
        else
          (fix all_zip (xs ys : list value) : bool :=
             match xs, ys with
             | x :: xs', y :: ys' => deep_compare x y && all_zip xs' ys'
             | _, _ => true
             end) l1 l2
    | _, _ => scalar_eq obj1 obj2
    end.

(** Every dict inside the value has pairwise distinct keys. *)
Fixpoint well_formed (obj : value) : Prop :=
  match obj with
  | VList items =>
      (fix all_items (xs : list value) : Prop :=
         match xs with
         | [] => True
         | x :: xs' => well_formed x /\ all_items xs'
         end) items
  | VDict entries =>
      NoDup (keys entries)
      /\ (fix all_entries (es : list (string * value)) : Prop :=
            match es with
            | [] => True
            | e :: es' => well_formed (snd e) /\ all_entries es'
            end) entries
  | _ => True
  end.

(** No float inside the value is a NaN. *)
Fixpoint nan_free (obj : value) : Prop :=
  match obj with
  | VFloat x => PrimFloat.is_nan x = false
  | VList items =>
      (fix all_items (xs : list value) : Prop :=
         match xs with
         | [] => True
         | x :: xs' => nan_free x /\ all_items xs'
         end) items
  | VDict entries =>
      (fix all_entries (es : list (string * value)) : Prop :=
         match es with
         | [] => True
         | e :: es' => nan_free (snd e) /\ all_entries es'
         end) entries
  | _ => True
  end.

(** The value holds neither a float nor a dict. *)
Fixpoint plain (obj : value) : Prop :=
  match obj with
  | VFloat _ => False
  | VDict _ => False
  | VList items =>
      (fix all_items (xs : list value) : Prop :=
         match xs with
         | [] => True
         | x :: xs' => plain x /\ all_items xs'
         end) items
  | _ => True
  end.

End PyValue.

Module ValueSamples.

Import PyValue.

(** A prompt record as [json.load] returns it, and the same record with
    its keys in another order. *)
Definition prompt : value :=
  VDict [("id"%string, VInt 7);
         ("text"%string, VStr "Obama was born");
         ("tags"%string, VList [VStr "bio"; VBool true; VNone])].

Definition prompt_reordered : value :=
  VDict [("tags"%string, VList [VStr "bio"; VBool true; VNone]);
         ("id"%string, VInt 7);
         ("text"%string, VStr "Obama was born")].

Definition scored : value :=
  VDict [("id"%string, VInt 7); ("score"%string, VFloat (-0.5)%float)].

End ValueSamples.

(* ------------------------------------------------------------------ *)
(** ** The searches of [tests/score_differences/different_beams.py]

    The script compares the scores of two generation runs with
    [compare_top_k], which it imports; the comparison comes in here as
    [same_top_k tokens beams], true when
    [compare_top_k(scores[:tokens, :4], other[:tokens, :4], beams, -1)]
    is [True]. *)

Module DifferentBeams.

Inductive exception : Type :=
| UnboundLocalError (name : string).

Inductive result (A : Type) : Type :=
| Ok (v : A)
| Raise (e : exception).
Arguments Ok {A} v.
Arguments Raise {A} e.

Fixpoint range_from (n : nat) (start step : Z) : list Z :=
  match n with
  | O => []
  | S n' => start :: range_from n' (start + step) step
  end.

(** [range(start, stop, step)] for a positive [step]. *)
Definition range (start stop step : Z) : list Z :=
  range_from (Z.to_nat ((stop - start + step - 1) / step)) start step.

(** The globals of the script the functions read. *)
Definition amount_of_tokens : Z := 200.
Definition max_new_tokens : Z := amount_of_tokens.
Definition max_tokens : Z := Z.min (max_new_tokens + 1) 200.
Definition max_beams : Z := 200.

Section Experiment.

Variable same_top_k : Z -> Z -> bool.

(** How the first loop of [find_amount_tokens_supported] ends: with a
    [return], or by leaving the loop with what [amount_tokens] holds
    (nothing when the loop never ran). *)
Inductive coarse_end : Type :=
| Returned (amount_tokens : Z)
| Left (amount_tokens : option Z).

Fixpoint tokens_coarse (amount_beam until_token : Z) (steps : list Z)
    (amount_tokens : option Z) : coarse_end :=
  match steps with
  | [] => Left amount_tokens
  | x :: rest =>
      if negb (same_top_k x amount_beam) then Left (Some (x - 1))
      else if until_token <=? x then Returned x
      else tokens_coarse amount_beam until_token rest (Some x)
  end.

(** The second loop; the function assigns [amount_of_tokens], so the
    name is local, and it is bound only when the loop breaks. *)
Fixpoint tokens_fine (amount_beam until_token : Z) (steps : list Z) : result Z :=
  match steps with
  | [] => Raise (UnboundLocalError "amount_of_tokens")
  | x :: rest =>
      if negb (same_top_k x amount_beam) then Ok (x - 1)
      else if until_token <=? x then Ok x
      else tokens_fine amount_beam until_token rest
  end.

Definition find_amount_tokens_supported (amount_beam until_token : Z) : result Z :=
  match tokens_coarse amount_beam until_token (range 1 (until_token + 1) 10) None with
  | Returned amount_tokens => Ok amount_tokens
  | Left None => Raise (UnboundLocalError "amount_tokens")
  | Left (Some amount_tokens) =>
      tokens_fine amount_beam until_token
        (range (Z.max (amount_tokens - 10) 1) (amount_tokens + 10) 1)
  end.

(** What [result] holds in [find_amount_beams_supported]: [True] after a
    comparison that held, the number of beams after one that did not. *)
Inductive answer : Type :=
| PyTrue
| PyInt (n : Z).

(** [True] counts as 1 in arithmetic. *)
Definition as_int (a : answer) : Z :=
  match a with
  | PyTrue => 1
  | PyInt n => n
  end.

(** Both loops of [find_amount_beams_supported] have this body. *)
Fixpoint beams_loop (until_token : Z) (steps : list Z) (result : option answer)
    : option answer :=
  match steps with
  | [] => result
  | amount_beams :: rest =>
      if negb (same_top_k until_token amount_beams) then Some (PyInt amount_beams)
      else beams_loop until_token rest (Some PyTrue)
  end.

Definition find_amount_beams_supported (until_beam : Z) (until_token : option Z)
    : result answer :=
  let until_token :=
    match until_token with
    | None => amount_of_tokens
    | Some t => t
    end in
  match beams_loop until_token (range 1 (until_beam + 1) 10) None with
  | None => Raise (UnboundLocalError "result")
  | Some r =>
      match beams_loop until_token
              (range (Z.max (as_int r - 10) 0) (as_int r + 10) 1) (Some r) with
      | Some r' => Ok r'
      | None => Raise (UnboundLocalError "result")
      end
  end.

End Experiment.

End DifferentBeams.

(** The part of the script's main loop that uses the search: the column
    of [results[desc]] for one prompt, and the prompt the runs start
    from. *)
Module DifferentBeamsRun.

Import DifferentBeams.

(** [column[i] = v] for an index within the column. *)
Fixpoint set_item (column : list Z) (i : nat) (v : Z) : list Z :=
  match column, i with
  | [], _ => []
  | _ :: rest, O => v :: rest
  | x :: rest, S i' => x :: set_item rest i' v
  end.

(** [column[i:] = v] *)
Fixpoint fill_from (column : list Z) (i : nat) (v : Z) : list Z :=
  match column, i with
  | [], _ => []
  | _ :: _, O => repeat v (length column)
  | x :: rest, S i' => x :: fill_from rest i' v
  end.

Section Recording.

Variable same_top_k : Z -> Z -> bool.

(** The loop over the numbers of beams: the search result goes to
    [column[beams - 1]]; a result of 0 zeroes the rest of the column and
    ends the loop. *)
Fixpoint record (beams_steps : list Z) (column : list Z) : result (list Z) :=
  match beams_steps with
  | [] => Ok column
  | beams :: rest =>
      match find_amount_tokens_supported same_top_k beams max_tokens with
      | Raise e => Raise e
      | Ok r =>
          let column := set_item column (Z.to_nat (beams - 1)) r in
          if r =? 0 then Ok (fill_from column (Z.to_nat beams) 0)
          else record rest column
      end
  end.

(** The column starts filled with -1. *)
Definition results_column : result (list Z) :=
  record (range 1 (max_beams + 1) 1) (repeat (-1) (Z.to_nat max_beams)).

End Recording.

Section Prompt.

(** The characters of a text, the space among them. *)
Variable char : Type.
Variable char_eqb : char -> char -> bool.
Variable space : char.

(** [s.split(" ")]: the pieces between the spaces, empty ones kept. *)
Fixpoint split (s : list char) : list (list char) :=
  match s with
  | [] => [[]]
  | c :: rest =>
      if char_eqb c space then [] :: split rest
      else
        match split rest with
        | word :: words => (c :: word) :: words
        | [] => [[c]]
        end
  end.

(** [" ".join(words)] *)
Fixpoint join (words : list (list char)) : list char :=
  match words with
  | [] => []
  | [word] => word
  | word :: rest => word ++ space :: join rest
  end.

(** [" ".join(text[:50].split(" ")[:-1])] *)
Definition example_of (text : list char) : list char :=
  join (removelast (split (firstn 50 text))).

End Prompt.

End DifferentBeamsRun.

Module TextSamples.

(** Texts of ASCII characters; [blank] is the space. *)
Definition blank : Ascii.ascii := Ascii.ascii_of_nat 32.

Definition example_of (text : string) : string :=
  string_of_list_ascii
    (DifferentBeamsRun.example_of Ascii.ascii Ascii.eqb blank
       (list_ascii_of_string text)).

End TextSamples.

(* ------------------------------------------------------------------ *)
(** ** Run-time facts *)

Section RunTime.

Lemma tuple_getitem_empty (A : Type) (i : Z) :
  Py.tuple_getitem (@nil A) i = Py.Raise Py.IndexError.
Proof.
  unfold Py.tuple_getitem; simpl.
  destruct (i <? 0) eqn:Hi.
  - replace (i + 0) with i by lia. rewrite Hi. reflexivity.
  - rewrite Hi. destruct (0 <=? i) eqn:Hle; [reflexivity | lia].
Qed.

Lemma tuple_getitem_minus_one (A : Type) (t : list A) :
  t <> [] -> exists x, Py.tuple_getitem t (-1) = Py.Ok x.
Proof.
  intros Ht. unfold Py.tuple_getitem.
  assert (Hlen : (0 < length t)%nat) by (destruct t; [congruence | simpl; lia]).
  cbv zeta. change (-1 <? 0) with true. cbv iota.
  destruct (-1 + Z.of_nat (length t) <? 0) eqn:H1; [lia |].
  destruct (Z.of_nat (length t) <=? -1 + Z.of_nat (length t)) eqn:H2; [lia |].
  cbn [orb].
  destruct (nth_error t (Z.to_nat (-1 + Z.of_nat (length t)))) eqn:Hn.
  - eauto.
  - apply nth_error_None in Hn. lia.
Qed.

Lemma list_eqb_eq (A : Type) (eqb : A -> A -> bool)
    (eqb_eq : forall x y, eqb x y = true <-> x = y) (xs ys : list A) :
  torch.list_eqb eqb xs ys = true <-> xs = ys.
Proof.
  revert ys. induction xs as [| x xs IH]; intros [| y ys]; simpl;
    try (split; [discriminate | congruence]); try tauto.
  rewrite andb_true_iff, eqb_eq, IH. split.
  - intros [-> ->]. reflexivity.
  - intros E. inversion E. auto.
Qed.

Lemma torch_equal_eq (a b : torch.Tensor Z) :
  torch.equal a b = true <-> a = b.
Proof.
  unfold torch.equal. rewrite andb_true_iff.
  rewrite (list_eqb_eq nat Nat.eqb Nat.eqb_eq).
  rewrite (list_eqb_eq Z Z.eqb Z.eqb_eq).
  destruct a as [sa da], b as [sb db]; simpl. split.
  - intros [-> ->]. reflexivity.
  - intros E. inversion E. auto.
Qed.

Example hash_of_empty_tuple : Py.tuplehash [] = 5740354900026072187.
Proof. vm_compute. reflexivity. Qed.

Example hash_of_small_tuple : Py.tuplehash [1; 2; 3] = 529344067295497451.
Proof. vm_compute. reflexivity. Qed.

Example narrow_last_rows :
  torch.narrow_last 2 {| torch.shape := [2; 3]%nat; torch.data := [1; 2; 3; 4; 5; 6] |} =
  {| torch.shape := [2; 2]%nat; torch.data := [1; 2; 4; 5] |}.
Proof. reflexivity. Qed.

Lemma unbind_from_ids (heap : torch.Heap) (xs : list Z) (k : nat) :
  map torch.id (torch.unbind_from heap k xs) = map heap (seq k (length xs)).
Proof.
  revert k. induction xs as [| x xs IH]; intros k; simpl.
  - reflexivity.
  - rewrite IH. reflexivity.
Qed.

End RunTime.

(* ------------------------------------------------------------------ *)
(** ** Stable partitioning *)

Module EngineFacts.

Import AggregationEngine.

Ltac string_cases k k' :=
  let E := fresh "E" in
  destruct (String.eqb k k') eqn:E;
  [apply String.eqb_eq in E | apply String.eqb_neq in E].

Lemma in_dec_key (k : string) (ks : list string) : {In k ks} + {~ In k ks}.
Proof. apply in_dec, string_dec. Qed.

Lemma has_key_self (h : SyntacticHypothesis.t) : has_key (key_of h) h = true.
Proof. unfold has_key. apply String.eqb_refl. Qed.

Lemma has_key_sym (k : string) (h : SyntacticHypothesis.t) :
  has_key k h = String.eqb k (key_of h).
Proof. unfold has_key. apply String.eqb_sym. Qed.

Lemma parts_of_cons (k : string) (ks : list string) (H : list SyntacticHypothesis.t) :
  parts_of (k :: ks) H = (k, filter (has_key k) H) :: parts_of ks H.
Proof. reflexivity. Qed.

Lemma parts_of_app (ks ks' : list string) (H : list SyntacticHypothesis.t) :
  parts_of (ks ++ ks') H = parts_of ks H ++ parts_of ks' H.
Proof. unfold parts_of. apply map_app. Qed.

Lemma filter_has_key_snoc (k : string) (H : list SyntacticHypothesis.t)
    (h : SyntacticHypothesis.t) :
  filter (has_key k) (H ++ [h]) =
  filter (has_key k) H ++ (if has_key k h then [h] else []).
Proof. rewrite filter_app. reflexivity. Qed.

Lemma filter_has_key_nil (k : string) (H : list SyntacticHypothesis.t) :
  ~ In k (map key_of H) -> filter (has_key k) H = [].
Proof.
  induction H as [| h H IH]; simpl; intros Hk; [reflexivity |].
  unfold has_key at 1. string_cases (key_of h) k.
  - exfalso. apply Hk. left. assumption.
  - apply IH. intros Hin. apply Hk. right. assumption.
Qed.

Lemma filter_has_key_key (k : string) (H : list SyntacticHypothesis.t) :
  Forall (fun h => key_of h = k) (filter (has_key k) H).
Proof.
  apply Forall_forall. intros h Hin. apply filter_In in Hin.
  destruct Hin as [_ Hk]. apply String.eqb_eq. exact Hk.
Qed.

Lemma filter_has_key_nonempty (k : string) (H : list SyntacticHypothesis.t) :
  In k (map key_of H) -> filter (has_key k) H <> [].
Proof.
  intros Hin E. apply in_map_iff in Hin. destruct Hin as [h [Hk Hh]].
  assert (Hf : In h (filter (has_key k) H)).
  { apply filter_In. split; [assumption |]. subst k. apply has_key_self. }
  rewrite E in Hf. destruct Hf.
Qed.

(** *** Keys in first-seen order *)

Lemma first_seen_In (k : string) (ks : list string) :
  In k (first_seen ks) <-> In k ks.
Proof.
  induction ks as [| a ks IH]; simpl; [tauto |].
  rewrite filter_In, IH. unfold differs_from. split.
  - intros [-> | [Hin _]]; auto.
  - intros [-> | Hin]; [auto |].
    string_cases k a; [auto | right]. split; [assumption | reflexivity].
Qed.

Lemma first_seen_NoDup (ks : list string) : NoDup (first_seen ks).
Proof.
  induction ks as [| a ks IH]; simpl; constructor.
  - intros Hin. apply filter_In in Hin. destruct Hin as [_ Hne].
    unfold differs_from in Hne. rewrite String.eqb_refl in Hne. discriminate.
  - apply NoDup_filter. exact IH.
Qed.

Lemma filter_differs_absent (k : string) (ks : list string) :
  ~ In k ks -> filter (differs_from k) ks = ks.
Proof.
  induction ks as [| a ks IH]; simpl; intros Hk; [reflexivity |].
  unfold differs_from at 1. string_cases a k.
  - exfalso. apply Hk. left. assumption.
  - simpl. f_equal. apply IH. intros Hin. apply Hk. right. assumption.
Qed.

Lemma first_seen_snoc_new (k : string) (ks : list string) :
  ~ In k ks -> first_seen (ks ++ [k]) = first_seen ks ++ [k].
Proof.
  induction ks as [| a ks IH]; simpl; intros Hk; [reflexivity |].
  assert (Ha : k <> a) by (intros ->; apply Hk; left; reflexivity).
  assert (Hks : ~ In k ks) by (intros Hin; apply Hk; right; assumption).
  rewrite IH by assumption. rewrite filter_app. simpl.
  unfold differs_from at 2. apply String.eqb_neq in Ha. rewrite Ha. reflexivity.
Qed.

Lemma first_seen_snoc_old (k : string) (ks : list string) :
  In k ks -> first_seen (ks ++ [k]) = first_seen ks.
Proof.
  induction ks as [| a ks IH]; simpl; intros Hin; [destruct Hin |].
  f_equal.
  destruct (in_dec_key k ks) as [Hold | Hnew].
  - rewrite IH by assumption. reflexivity.
  - destruct Hin as [-> | Hin]; [| contradiction].
    rewrite first_seen_snoc_new by assumption.
    rewrite filter_app. simpl. unfold differs_from at 2.
    rewrite String.eqb_refl. simpl. apply app_nil_r.
Qed.

(** *** The partitions after the whole input *)

Lemma partition_by_key_snoc (H : list SyntacticHypothesis.t)
    (h : SyntacticHypothesis.t) :
  partition_by_key (H ++ [h]) = add_to_partitions h (partition_by_key H).
Proof. unfold partition_by_key. rewrite fold_left_app. reflexivity. Qed.

Lemma parts_of_snoc_other (ks : list string) (H : list SyntacticHypothesis.t)
    (h : SyntacticHypothesis.t) :
  ~ In (key_of h) ks -> parts_of ks (H ++ [h]) = parts_of ks H.
Proof.
  intros Hk. unfold parts_of. apply map_ext_in. intros k Hin.
  rewrite filter_has_key_snoc, has_key_sym.
  string_cases k (key_of h).
  - exfalso. apply Hk. rewrite <- E. assumption.
  - rewrite app_nil_r. reflexivity.
Qed.

Lemma add_to_known_key (ks : list string) (H : list SyntacticHypothesis.t)
    (h : SyntacticHypothesis.t) :
  NoDup ks -> In (key_of h) ks ->
  add_to_partitions h (parts_of ks H) = parts_of ks (H ++ [h]).
Proof.
  induction ks as [| k ks IH]; intros Hnd Hin; [destruct Hin |].
  inversion Hnd as [| ? ? Hk Hnd']; subst.
  rewrite !parts_of_cons. cbn [add_to_partitions].
  rewrite filter_has_key_snoc, has_key_sym.
  string_cases k (key_of h).
  - subst k. rewrite parts_of_snoc_other by assumption. reflexivity.
  - destruct Hin as [Hin | Hin]; [contradiction |].
    rewrite app_nil_r. f_equal. apply IH; assumption.
Qed.

Lemma add_to_new_key (ks : list string) (H : list SyntacticHypothesis.t)
    (h : SyntacticHypothesis.t) :
  ~ In (key_of h) ks ->
  add_to_partitions h (parts_of ks H) = parts_of ks H ++ [(key_of h, [h])].
Proof.
  induction ks as [| k ks IH]; intros Hk; [reflexivity |].
  rewrite parts_of_cons. cbn [add_to_partitions app].
  string_cases k (key_of h).
  - exfalso. apply Hk. left. assumption.
  - f_equal. apply IH. intros Hin. apply Hk. right. assumption.
Qed.

(** The fold computes, for every key in first-seen order, the
    hypotheses of that key in input order. *)
Lemma partition_by_key_spec (H : list SyntacticHypothesis.t) :
  partition_by_key H = parts_of (first_seen (map key_of H)) H.
Proof.
  induction H as [| h H IH] using rev_ind; [reflexivity |].
  rewrite partition_by_key_snoc, IH, map_app. simpl.
  destruct (in_dec_key (key_of h) (map key_of H)) as [Hold | Hnew].
  - rewrite first_seen_snoc_old by assumption.
    apply add_to_known_key.
    + apply first_seen_NoDup.
    + apply first_seen_In. assumption.
  - rewrite first_seen_snoc_new by assumption.
    assert (Hfs : ~ In (key_of h) (first_seen (map key_of H)))
      by (rewrite first_seen_In; assumption).
    rewrite add_to_new_key by assumption.
    rewrite parts_of_app, parts_of_snoc_other by assumption.
    rewrite parts_of_cons, filter_has_key_snoc, has_key_self.
    rewrite (filter_has_key_nil _ H Hnew). reflexivity.
Qed.

Lemma add_to_partitions_members (h : SyntacticHypothesis.t) (parts : list partition) :
  Permutation (concat (map snd (add_to_partitions h parts)))
              (h :: concat (map snd parts)).
Proof.
  induction parts as [| [k members] rest IH]; simpl.
  - reflexivity.
  - destruct (String.eqb k (key_of h)); simpl.
    + rewrite <- app_assoc. simpl. symmetry. apply Permutation_middle.
    + rewrite IH. symmetry. apply Permutation_middle.
Qed.

Lemma partition_by_key_members (H : list SyntacticHypothesis.t) :
  Permutation (concat (map snd (partition_by_key H))) H.
Proof.
  induction H as [| h H IH] using rev_ind; [reflexivity |].
  rewrite partition_by_key_snoc, add_to_partitions_members, IH.
  apply Permutation_cons_append.
Qed.

(** *** From partitions to groups *)

Section Groups.

Variable aggregate : list SyntacticHypothesis.t -> float.

Lemma members_of_app (G1 G2 : list SemanticHypothesis.t) :
  members_of (G1 ++ G2) = members_of G1 ++ members_of G2.
Proof. unfold members_of. rewrite map_app. apply concat_app. Qed.

Lemma members_of_singletons (members : list SyntacticHypothesis.t) :
  members_of (map (singleton aggregate) members) = members.
Proof.
  induction members as [| h members IH]; [reflexivity |].
  unfold members_of in *. simpl. rewrite IH. reflexivity.
Qed.

Lemma groups_of_partition_cases (p : partition) :
  (all_incomplete (snd p) = false /\
   groups_of_partition aggregate p = [make_group aggregate (fst p) (snd p)])
  \/
  (all_incomplete (snd p) = true /\
   groups_of_partition aggregate p = map (singleton aggregate) (snd p)).
Proof.
  unfold groups_of_partition, merge.
  destruct (all_incomplete (snd p)); [right | left]; split; reflexivity.
Qed.

Lemma groups_of_partition_members (p : partition) :
  members_of (groups_of_partition aggregate p) = snd p.
Proof.
  destruct (groups_of_partition_cases p) as [[_ ->] | [_ ->]].
  - unfold members_of. simpl. apply app_nil_r.
  - apply members_of_singletons.
Qed.

Lemma flat_map_members (parts : list partition) :
  members_of (flat_map (groups_of_partition aggregate) parts) =
  concat (map snd parts).
Proof.
  induction parts as [| p parts IH]; [reflexivity |].
  simpl. rewrite members_of_app, groups_of_partition_members, IH.
  reflexivity.
Qed.

Lemma groups_of_partition_keys (k : string) (members : list SyntacticHypothesis.t) :
  Forall (fun h => key_of h = k) members ->
  Forall (fun g => SemanticHypothesis.aggregation_key g = k)
         (groups_of_partition aggregate (k, members)).
Proof.
  intros Hk.
  destruct (groups_of_partition_cases (k, members)) as [[_ ->] | [_ ->]]; simpl.
  - constructor; [reflexivity | constructor].
  - apply Forall_map. exact Hk.
Qed.

Lemma groups_of_partition_nonempty (k : string) (members : list SyntacticHypothesis.t) :
  members <> [] -> groups_of_partition aggregate (k, members) <> [].
Proof.
  intros Hne.
  destruct (groups_of_partition_cases (k, members)) as [[_ ->] | [_ ->]]; simpl.
  - discriminate.
  - destruct members; [congruence | discriminate].
Qed.

Lemma filter_all_or_none (k k' : string) (G : list SemanticHypothesis.t) :
  Forall (fun g => SemanticHypothesis.aggregation_key g = k') G ->
  filter (group_has_key k) G = if String.eqb k' k then G else [].
Proof.
  induction 1 as [| g G Hg _ IH]; simpl.
  - destruct (String.eqb k' k); reflexivity.
  - unfold group_has_key at 1. rewrite Hg, IH.
    destruct (String.eqb k' k); reflexivity.
Qed.

(** The groups of one key hold the hypotheses of that key, in input
    order. *)
Lemma groups_per_key (k : string) (ks : list string)
    (H : list SyntacticHypothesis.t) :
  NoDup ks ->
  members_of (filter (group_has_key k) (flat_map (groups_of_partition aggregate) (parts_of ks H))) =
  if in_dec_key k ks then filter (has_key k) H else [].
Proof.
  induction ks as [| k' ks IH]; intros Hnd.
  { destruct (in_dec_key k []) as [[] | _]. reflexivity. }
  inversion Hnd as [| ? ? Hk' Hnd']; subst.
  rewrite parts_of_cons. cbn [flat_map].
  rewrite filter_app, members_of_app, (IH Hnd').
  rewrite (filter_all_or_none k k')
    by (apply groups_of_partition_keys, filter_has_key_key).
  string_cases k' k.
  - subst k'. rewrite groups_of_partition_members. simpl.
    destruct (in_dec_key k ks) as [Hin | _]; [contradiction |].
    destruct (in_dec_key k (k :: ks)) as [_ | Hout].
    + apply app_nil_r.
    + exfalso. apply Hout. left. reflexivity.
  - simpl.
    destruct (in_dec_key k ks) as [Hin | Hout];
      destruct (in_dec_key k (k' :: ks)) as [Hin' | Hout']; try reflexivity.
    + exfalso. apply Hout'. right. assumption.
    + destruct Hin' as [-> | Hin']; [congruence | contradiction].
Qed.

Lemma filter_idem (A : Type) (f : A -> bool) (l : list A) :
  filter f (filter f l) = filter f l.
Proof.
  induction l as [| a l IH]; [reflexivity |].
  simpl. destruct (f a) eqn:Ha; simpl; rewrite ?Ha, IH; reflexivity.
Qed.

Lemma first_seen_block (k : string) (n : nat) (l : list string) :
  filter (differs_from k) (first_seen (repeat k n ++ l)) =
  filter (differs_from k) (first_seen l).
Proof.
  induction n as [| n IH]; [reflexivity |].
  cbn [repeat app first_seen filter]. unfold differs_from at 1.
  rewrite String.eqb_refl. cbn [negb].
  rewrite filter_idem. exact IH.
Qed.

Lemma keys_of_partition_groups (k : string) (members : list SyntacticHypothesis.t) :
  Forall (fun h => key_of h = k) members -> members <> [] ->
  exists n,
    map SemanticHypothesis.aggregation_key
        (groups_of_partition aggregate (k, members)) = repeat k (S n).
Proof.
  intros Hk Hne.
  pose proof (groups_of_partition_keys k members Hk) as Hg.
  pose proof (groups_of_partition_nonempty k members Hne) as Hn.
  induction Hg as [| g G Hgk HG IH]; [congruence |].
  destruct G as [| g' G].
  - exists 0%nat. simpl. rewrite Hgk. reflexivity.
  - destruct IH as [n Hrep]; [discriminate |].
    exists (S n). cbn [map]. rewrite Hgk. cbn [map] in Hrep. rewrite Hrep.
    reflexivity.
Qed.

(** The keys of the groups come in the order of the partitions. *)
Lemma groups_key_order (ks : list string) (H : list SyntacticHypothesis.t) :
  NoDup ks -> (forall k, In k ks -> In k (map key_of H)) ->
  first_seen (map SemanticHypothesis.aggregation_key (flat_map (groups_of_partition aggregate) (parts_of ks H))) = ks.
Proof.
  induction ks as [| k ks IH]; intros Hnd Hks; [reflexivity |].
  inversion Hnd as [| ? ? Hk Hnd']; subst.
  rewrite parts_of_cons. cbn [flat_map]. rewrite map_app.
  destruct (keys_of_partition_groups k (filter (has_key k) H)) as [n ->].
  - apply filter_has_key_key.
  - apply filter_has_key_nonempty, Hks. left. reflexivity.
  - cbn [repeat app first_seen]. f_equal.
    rewrite first_seen_block.
    rewrite IH; [| assumption | intros k' Hin; apply Hks; right; assumption].
    apply filter_differs_absent. assumption.
Qed.

(** A group is a whole partition or one hypothesis whose key is
    incomplete. *)
Lemma groups_shape (ks : list string) (H : list SyntacticHypothesis.t)
    (g : SemanticHypothesis.t) :
  In g (flat_map (groups_of_partition aggregate) (parts_of ks H)) ->
  (SemanticHypothesis.syntactic_hypotheses g =
     filter (has_key (SemanticHypothesis.aggregation_key g)) H
   /\ all_incomplete (SemanticHypothesis.syntactic_hypotheses g) = false)
  \/
  (exists h, SemanticHypothesis.syntactic_hypotheses g = [h]
             /\ key_of h = SemanticHypothesis.aggregation_key g
             /\ In h H
             /\ SyntacticHypothesis.is_aggregation_key_complete h = false).
Proof.
  intros Hin. apply in_flat_map in Hin.
  destruct Hin as [p [Hp Hg]]. unfold parts_of in Hp.
  apply in_map_iff in Hp. destruct Hp as [k [<- _]].
  destruct (groups_of_partition_cases (k, filter (has_key k) H))
    as [[Hinc E] | [Hinc E]]; rewrite E in Hg; simpl in Hg, Hinc.
  - destruct Hg as [<- | []]. left. simpl. split; [reflexivity | exact Hinc].
  - apply in_map_iff in Hg. destruct Hg as [h [<- Hh]]. right.
    exists h. simpl. apply filter_In in Hh as Hh'. destruct Hh' as [HhH _].
    repeat split; try assumption.
    unfold all_incomplete in Hinc. rewrite forallb_forall in Hinc.
    apply negb_true_iff, Hinc. exact Hh.
Qed.

End Groups.

End EngineFacts.


(* ------------------------------------------------------------------ *)
(** ** The engine on whole inputs *)

Section EngineResults.

Import AggregationEngine EngineFacts.

Variable aggregate : list SyntacticHypothesis.t -> float.

Lemma group_nonempty_input (H : list SyntacticHypothesis.t) :
  H <> [] ->
  group aggregate H =
  inr (flat_map (groups_of_partition aggregate)
                (parts_of (first_seen (map key_of H)) H)).
Proof.
  intros Hne. destruct H as [| h H]; [congruence |].
  unfold group. rewrite partition_by_key_spec. reflexivity.
Qed.

Lemma group_result_input (H : list SyntacticHypothesis.t)
    (G : list SemanticHypothesis.t) :
  group aggregate H = inr G -> H <> [].
Proof. destruct H; simpl; [discriminate | discriminate]. Qed.

Lemma group_members_permutation (H : list SyntacticHypothesis.t)
    (G : list SemanticHypothesis.t) :
  group aggregate H = inr G -> Permutation (members_of G) H.
Proof.
  intros HG. destruct H as [| h H]; [discriminate |].
  unfold group in HG. injection HG as <-.
  rewrite flat_map_members. apply partition_by_key_members.
Qed.

End EngineResults.

(** The scenario with keys 0-A, 0-A, 1-B, 1-B gives two groups of two. *)
Example group_scenario :
  AggregationEngine.group Samples.max_policy
    [Samples.h1; Samples.h2; Samples.h3; Samples.h4] =
  inr [Samples.semantic "0-A" (-0.1)%float [Samples.h1; Samples.h2];
       Samples.semantic "1-B" (-0.2)%float [Samples.h3; Samples.h4]].
Proof. vm_compute. reflexivity. Qed.

(** Hypotheses without a tag stay apart although they share the empty
    key. *)
Example group_incomplete_scenario :
  AggregationEngine.group Samples.max_policy
    [Samples.u1; Samples.h1; Samples.u2] =
  inr [Samples.semantic "" (-0.1)%float [Samples.u1];
       Samples.semantic "" (-0.2)%float [Samples.u2];
       Samples.semantic "0-A" (-0.1)%float [Samples.h1]].
Proof. vm_compute. reflexivity. Qed.

(* ------------------------------------------------------------------ *)
(** ** Grouping *)

(** C1. For a non-empty input [H], [group] succeeds and partitions [H]
    exactly: the members of the groups, taken together, are a
    permutation of [H] (nothing dropped, nothing duplicated); every
    member carries the aggregation key of its group; a group is either
    all the hypotheses of its key or one hypothesis whose key is
    incomplete; the keys of the groups follow the first-seen order of
    the keys of [H]; and the groups of any one key hold the hypotheses
    of that key in input order. *)
Theorem group_partitions_exactly
    (aggregate : list SyntacticHypothesis.t -> float)
    (H : list SyntacticHypothesis.t) :
  H <> [] ->
  exists G : list SemanticHypothesis.t,
    AggregationEngine.group aggregate H = inr G
    /\ Permutation (AggregationEngine.members_of G) H
    /\ (forall g m,
          In g G -> In m (SemanticHypothesis.syntactic_hypotheses g) ->
          SyntacticHypothesis.aggregation_key m = SemanticHypothesis.aggregation_key g)
    /\ (forall g,
          In g G ->
          (SemanticHypothesis.syntactic_hypotheses g =
             filter (AggregationEngine.has_key (SemanticHypothesis.aggregation_key g)) H
           /\ AggregationEngine.all_incomplete
                (SemanticHypothesis.syntactic_hypotheses g) = false)
          \/
          (exists h,
              SemanticHypothesis.syntactic_hypotheses g = [h]
              /\ In h H
              /\ SyntacticHypothesis.is_aggregation_key_complete h = false))
    /\ AggregationEngine.first_seen (map SemanticHypothesis.aggregation_key G) =
       AggregationEngine.first_seen (map SyntacticHypothesis.aggregation_key H)
    /\ AggregationEngine.members_of G =
       concat (map (fun k => filter (AggregationEngine.has_key k) H)
                   (AggregationEngine.first_seen
                      (map SyntacticHypothesis.aggregation_key H)))
    /\ (forall k,
          AggregationEngine.members_of
            (filter (AggregationEngine.group_has_key k) G) =
          filter (AggregationEngine.has_key k) H).
Proof.
  intros Hne.
  pose proof (group_nonempty_input aggregate H Hne) as HG.
  set (ks := AggregationEngine.first_seen (map AggregationEngine.key_of H)) in *.
  set (G := flat_map (AggregationEngine.groups_of_partition aggregate)
                     (AggregationEngine.parts_of ks H)) in *.
  assert (Hshape := fun g => EngineFacts.groups_shape aggregate ks H g).
  exists G. split; [exact HG |]. split; [| split; [| split; [| split; [| split]]]].
  - exact (group_members_permutation aggregate H G HG).
  - intros g m Hg Hm. destruct (Hshape g Hg) as [[E _] | [h [E [Hk _]]]].
    + rewrite E in Hm. apply filter_In in Hm. destruct Hm as [_ Hm].
      apply String.eqb_eq. exact Hm.
    + rewrite E in Hm. destruct Hm as [<- | []]. exact Hk.
  - intros g Hg. destruct (Hshape g Hg) as [Hw | [h [E [_ [Hin Hc]]]]].
    + left. exact Hw.
    + right. exists h. auto.
  - apply EngineFacts.groups_key_order.
    + apply EngineFacts.first_seen_NoDup.
    + intros k Hk. apply EngineFacts.first_seen_In. exact Hk.
  - unfold G. rewrite EngineFacts.flat_map_members.
    unfold AggregationEngine.parts_of. rewrite map_map. reflexivity.
  - intros k. unfold G.
    rewrite EngineFacts.groups_per_key by apply EngineFacts.first_seen_NoDup.
    destruct (EngineFacts.in_dec_key k ks) as [_ | Hout]; [reflexivity |].
    symmetry. apply EngineFacts.filter_has_key_nil.
    intros Hin. apply Hout, EngineFacts.first_seen_In. exact Hin.
Qed.

Lemma group_partitions_exactly_witness :
  exists G : list SemanticHypothesis.t,
    AggregationEngine.group Samples.max_policy
      [Samples.u1; Samples.h1; Samples.h2; Samples.u2; Samples.h3] = inr G
    /\ Permutation (AggregationEngine.members_of G)
         [Samples.u1; Samples.h1; Samples.h2; Samples.u2; Samples.h3]
    /\ AggregationEngine.first_seen (map SemanticHypothesis.aggregation_key G) =
       [""%string; "0-A"%string; "1-B"%string].
Proof.
  destruct (group_partitions_exactly Samples.max_policy
              [Samples.u1; Samples.h1; Samples.h2; Samples.u2; Samples.h3])
    as [G [HG [HP [_ [_ [HK _]]]]]].
  - discriminate.
  - exists G. split; [exact HG |]. split; [exact HP |]. exact HK.
Defined.

(** C5. [group] fails with [EmptyInput] exactly on the empty input: the
    empty input is an error and not an empty result, no other input
    gives that error, and a result is never empty. *)
Theorem group_fails_exactly_on_empty_input
    (aggregate : list SyntacticHypothesis.t -> float) :
  AggregationEngine.group aggregate [] = inl EmptyInput
  /\ (forall H, AggregationEngine.group aggregate H = inl EmptyInput <-> H = [])
  /\ (forall H e, AggregationEngine.group aggregate H = inl e ->
                  e = EmptyInput /\ H = [])
  /\ (forall H G, AggregationEngine.group aggregate H = inr G ->
                  H <> [] /\ G <> []).
Proof.
  split; [reflexivity |]. split; [| split].
  - intros H. split.
    + destruct H; [reflexivity | discriminate].
    + intros ->. reflexivity.
  - intros H e He. destruct H; [| discriminate].
    injection He as <-. split; reflexivity.
  - intros H G HG.
    pose proof (group_result_input aggregate H G HG) as Hne.
    split; [exact Hne |]. intros ->.
    apply group_members_permutation in HG.
    apply Permutation_nil in HG. congruence.
Qed.

Lemma group_fails_exactly_on_empty_input_witness :
  AggregationEngine.group Samples.max_policy [] = inl EmptyInput
  /\ AggregationEngine.group Samples.max_policy [Samples.h1] <> inl EmptyInput.
Proof.
  split.
  - exact (proj1 (group_fails_exactly_on_empty_input Samples.max_policy)).
  - intros E.
    apply (proj1 (proj2 (group_fails_exactly_on_empty_input Samples.max_policy))) in E.
    discriminate E.
Defined.

(* ------------------------------------------------------------------ *)
(** ** Shortening and restoring *)

(** A continuation that already holds an unshortened form does not come
    back from [shorten] and [restore]: the restored continuation has the
    same data but no unshortened form. *)
Lemma restore_shorten_of_shortened_differs :
  exists c' : SyntacticHypothesisContinuationData.t,
    ContinuationStateStore.shorten Samples.shortened_once 0 = inr c'
    /\ SyntacticHypothesisContinuationData.unshortened_data
         (ContinuationStateStore.restore c') = None
    /\ ContinuationStateStore.restore c' <> Samples.shortened_once.
Proof.
  eexists. split; [reflexivity |]. split; [reflexivity |].
  intros E.
  apply (f_equal SyntacticHypothesisContinuationData.unshortened_data) in E.
  discriminate E.
Qed.

Lemma shorten_within_length
    (c : SyntacticHypothesisContinuationData.t) (n : nat) :
  (n <= ContinuationStateStore.current_length c)%nat ->
  ContinuationStateStore.shorten c n =
  inr {| SyntacticHypothesisContinuationData.base :=
           ContinuationStateStore.truncate n
             (SyntacticHypothesisContinuationData.base c);
         SyntacticHypothesisContinuationData.unshortened_data :=
           Some (SyntacticHypothesisContinuationData.base c) |}.
Proof.
  intros Hn. unfold ContinuationStateStore.shorten.
  destruct (Nat.ltb_spec (ContinuationStateStore.current_length c) n) as [Hlt | _];
    [lia | reflexivity].
Qed.

Lemma shorten_beyond_length_fails
    (c : SyntacticHypothesisContinuationData.t) (n : nat) :
  (ContinuationStateStore.current_length c < n)%nat ->
  ContinuationStateStore.shorten c n = inl InvalidLength.
Proof.
  intros Hn. unfold ContinuationStateStore.shorten.
  destruct (Nat.ltb_spec (ContinuationStateStore.current_length c) n) as [_ | Hle];
    [reflexivity | lia].
Qed.

(** Whatever the continuation held before, a restored shortening has the
    data of the continuation and no unshortened form. *)
Lemma restore_shorten_keeps_data
    (c : SyntacticHypothesisContinuationData.t) (n : nat) :
  (n <= ContinuationStateStore.current_length c)%nat ->
  exists c',
    ContinuationStateStore.shorten c n = inr c'
    /\ SyntacticHypothesisContinuationData.base (ContinuationStateStore.restore c') =
       SyntacticHypothesisContinuationData.base c
    /\ SyntacticHypothesisContinuationData.unshortened_data
         (ContinuationStateStore.restore c') = None.
Proof.
  intros Hn. eexists. split; [apply shorten_within_length, Hn |].
  split; reflexivity.
Qed.

(** C4 (amended). For a continuation [c] that holds no unshortened form
    and a length [n] within the current length, [shorten c n] succeeds
    and [restore] gives [c] back exactly.  [restore] is idempotent, and
    it returns a continuation without unshortened form unchanged. *)
Theorem restore_inverts_shorten_of_unshortened :
  (forall c n,
      (n <= ContinuationStateStore.current_length c)%nat ->
      SyntacticHypothesisContinuationData.unshortened_data c = None ->
      exists c',
        ContinuationStateStore.shorten c n = inr c'
        /\ ContinuationStateStore.restore c' = c)
  /\ (forall c,
        ContinuationStateStore.restore (ContinuationStateStore.restore c) =
        ContinuationStateStore.restore c)
  /\ (forall c,
        SyntacticHypothesisContinuationData.unshortened_data c = None ->
        ContinuationStateStore.restore c = c).
Proof.
  split; [| split].
  - intros c n Hn Hnone. eexists. split; [apply shorten_within_length, Hn |].
    destruct c as [b u]. simpl in Hnone. subst u. reflexivity.
  - intros [b [u |]]; reflexivity.
  - intros [b u] Hnone. simpl in Hnone. subst u. reflexivity.
Qed.

Lemma restore_inverts_shorten_of_unshortened_witness :
  exists c',
    ContinuationStateStore.shorten (Samples.fresh [101; 2023; 7]) 2 = inr c'
    /\ ContinuationStateStore.restore c' = Samples.fresh [101; 2023; 7].
Proof.
  apply (proj1 restore_inverts_shorten_of_unshortened).
  - vm_compute. lia.
  - reflexivity.
Defined.

(** Shortening past the current length is refused. *)
Example shorten_beyond_length :
  ContinuationStateStore.shorten (Samples.fresh [101; 2023; 7]) 4 = inl InvalidLength.
Proof. reflexivity. Qed.

Example shorten_keeps_prefix :
  ContinuationStateStore.shorten (Samples.fresh [101; 2023; 7]) 2 =
  inr {| SyntacticHypothesisContinuationData.base := Samples.data_of [101; 2023];
         SyntacticHypothesisContinuationData.unshortened_data :=
           Some (Samples.data_of [101; 2023; 7]) |}.
Proof. vm_compute. reflexivity. Qed.

(* ------------------------------------------------------------------ *)
(** ** Equality, hashing and order of hypotheses *)

(** C2. Two syntactic hypotheses compare equal exactly when their
    [sequences] tensors are the same tensor, size and elements; no other
    field takes part, so hypotheses with different sequences never
    compare equal. *)
Theorem syntactic_hypothesis_eq_iff_sequences (a b : SyntacticHypothesis.t) :
  (SyntacticHypothesis.__eq__ a b = true <->
   SyntacticHypothesis.sequences a = SyntacticHypothesis.sequences b)
  /\ (SyntacticHypothesis.sequences a <> SyntacticHypothesis.sequences b ->
      SyntacticHypothesis.__eq__ a b = false).
Proof.
  unfold SyntacticHypothesis.__eq__. split.
  - apply torch_equal_eq.
  - intros Hne. apply not_true_is_false. intros E.
    apply Hne, torch_equal_eq, E.
Qed.

Lemma syntactic_hypothesis_eq_iff_sequences_witness :
  SyntacticHypothesis.aggregation_key Samples.twin_a <>
  SyntacticHypothesis.aggregation_key Samples.twin_b
  /\ SyntacticHypothesis.semantic_source_hypothesis_idx Samples.twin_a <>
     SyntacticHypothesis.semantic_source_hypothesis_idx Samples.twin_b
  /\ SyntacticHypothesis.__eq__ Samples.twin_a Samples.twin_b = true
  /\ SyntacticHypothesis.__eq__ Samples.twin_a Samples.other_c = false.
Proof.
  split; [discriminate |]. split; [discriminate |]. split.
  - apply (proj1 (syntactic_hypothesis_eq_iff_sequences Samples.twin_a Samples.twin_b)).
    reflexivity.
  - apply (proj2 (syntactic_hypothesis_eq_iff_sequences Samples.twin_a Samples.other_c)).
    discriminate.
Defined.

(** The score does not take part either. *)
Example twins_differ_in_score :
  SyntacticHypothesis.path_score_below Samples.twin_a Samples.twin_b = true.
Proof. vm_compute. reflexivity. Qed.

(** The class gives [<] nothing to call, while the path scores of the
    two hypotheses are in order. *)
Lemma syntactic_hypothesis_lt_is_undefined_here :
  SyntacticHypothesis.path_score_below Samples.twin_a Samples.twin_b = true
  /\ Py.less_than SyntacticHypothesis.ordering Samples.twin_a Samples.twin_b =
     Py.Raise Py.TypeError
  /\ Py.less_than SyntacticHypothesis.ordering Samples.twin_a Samples.twin_b <>
     Py.Ok (SyntacticHypothesis.path_score_below Samples.twin_a Samples.twin_b).
Proof.
  split; [vm_compute; reflexivity |]. split; [reflexivity | discriminate].
Qed.

(** C3 (amended). [SyntacticHypothesis] defines no order: [a < b] raises
    [TypeError] for every two instances, whatever their path scores. *)
Theorem syntactic_hypothesis_lt_raises (a b : SyntacticHypothesis.t) :
  Py.less_than SyntacticHypothesis.ordering a b = Py.Raise Py.TypeError.
Proof. reflexivity. Qed.

(** C6. [a < b] on semantic hypotheses is the comparison of their
    scores, and the length of a semantic hypothesis is the number of its
    members. *)
Theorem semantic_hypothesis_lt_and_len (a b : SemanticHypothesis.t) :
  Py.less_than SemanticHypothesis.ordering a b =
  Py.Ok (PrimFloat.ltb (SemanticHypothesis.score a) (SemanticHypothesis.score b))
  /\ (Py.less_than SemanticHypothesis.ordering a b = Py.Ok true <->
      PrimFloat.ltb (SemanticHypothesis.score a) (SemanticHypothesis.score b) = true)
  /\ SemanticHypothesis.__len__ a =
     Z.of_nat (length (SemanticHypothesis.syntactic_hypotheses a)).
Proof.
  split; [reflexivity |]. split; [| reflexivity].
  unfold Py.less_than. simpl. unfold SemanticHypothesis.__lt__. split.
  - intros E. injection E as E. exact E.
  - intros ->. reflexivity.
Qed.

Example semantic_hypothesis_order_sample :
  Py.less_than SemanticHypothesis.ordering
    (Samples.semantic "1-B" (-0.2)%float [Samples.h3; Samples.h4])
    (Samples.semantic "0-A" (-0.1)%float [Samples.h1; Samples.h2]) = Py.Ok true
  /\ SemanticHypothesis.__len__
       (Samples.semantic "1-B" (-0.2)%float [Samples.h3; Samples.h4]) = 2.
Proof. split; vm_compute; reflexivity. Qed.

(** The hash of a hypothesis is the tuple hash of the addresses its
    token objects were given: it depends on how many tokens there are
    and on the allocator, not on the tokens. *)
Lemma syntactic_hypothesis_hash_of_addresses
    (heap : torch.Heap) (a : SyntacticHypothesis.t) :
  SyntacticHypothesis.__hash__ heap a =
  Py.tuplehash
    (map (fun k => Py.hash_of_dunder (heap k))
         (seq 0 (length (torch.data (SyntacticHypothesis.sequences a))))).
Proof.
  unfold SyntacticHypothesis.__hash__, torch.iter, torch.Tensor__hash__.
  cbn [torch.flatten torch.data].
  rewrite <- (map_map torch.id Py.hash_of_dunder).
  rewrite unbind_from_ids, map_map. reflexivity.
Qed.

Lemma syntactic_hypothesis_hash_ignores_tokens
    (heap : torch.Heap) (a b : SyntacticHypothesis.t) :
  length (torch.data (SyntacticHypothesis.sequences a)) =
  length (torch.data (SyntacticHypothesis.sequences b)) ->
  SyntacticHypothesis.__hash__ heap a = SyntacticHypothesis.__hash__ heap b.
Proof.
  intros Hlen. rewrite !syntactic_hypothesis_hash_of_addresses, Hlen.
  reflexivity.
Qed.

(** C9 (the code departs from it). The hash of a hypothesis is the
    tuple hash of the addresses of its token objects.  So two hypotheses
    that compare equal hash differently as soon as their token objects
    live at different addresses, and two hypotheses that do not compare
    equal hash alike when the addresses coincide. *)
Theorem equal_hypotheses_hash_differently :
  (forall heap a,
      SyntacticHypothesis.__hash__ heap a =
      Py.tuplehash
        (map (fun k => Py.hash_of_dunder (heap k))
             (seq 0 (length (torch.data (SyntacticHypothesis.sequences a))))))
  /\ SyntacticHypothesis.__eq__ Samples.twin_a Samples.twin_b = true
  /\ SyntacticHypothesis.__hash__ Samples.heap_a Samples.twin_a = 9079057666157478418
  /\ SyntacticHypothesis.__hash__ Samples.heap_b Samples.twin_b = -1835967927264518944
  /\ SyntacticHypothesis.__hash__ Samples.heap_a Samples.twin_a <>
     SyntacticHypothesis.__hash__ Samples.heap_b Samples.twin_b
  /\ SyntacticHypothesis.__eq__ Samples.twin_a Samples.other_c = false
  /\ SyntacticHypothesis.__hash__ Samples.heap_a Samples.other_c = 9079057666157478418.
Proof.
  split; [exact syntactic_hypothesis_hash_of_addresses |].
  repeat split; vm_compute; solve [reflexivity | discriminate].
Qed.

(* ------------------------------------------------------------------ *)
(** ** Defaults of the constructors *)

(** C7. A [SemanticData] built without the [has_semantic_data] argument
    has the flag set. *)
Theorem semantic_data_default_has_semantic_data
    (unique_key : string) (start end_ : Z) (_type : string)
    (amount_of_chunks : option Z) (other : option Py.object) :
  SemanticData.has_semantic_data
    (SemanticData.__init__ unique_key start end_ _type amount_of_chunks other None)
  = true.
Proof. reflexivity. Qed.

(** C8. A [SyntacticHypothesis] built without the two flag arguments has
    both flags cleared, which is the [Created] state of the life cycle. *)
Theorem syntactic_hypothesis_starts_created
    (aggregation_key : string)
    (semantic_source_hypothesis_idx syntactic_source_hypothesis_idx hypothesis_idx : Z)
    (path_score normalized_path_score : torch.Tensor float)
    (semantic_data : SemanticData.t)
    (syntactic_hypothesis : SyntacticHypothesisContinuationData.t)
    (metadata : SyntacticHypothesisMetaData.t) :
  let h :=
    SyntacticHypothesis.__init__ aggregation_key semantic_source_hypothesis_idx
      syntactic_source_hypothesis_idx hypothesis_idx path_score
      normalized_path_score semantic_data syntactic_hypothesis metadata None None in
  SyntacticHypothesis.is_aggregation_key_complete h = false
  /\ SyntacticHypothesis.is_normalized_path_score_calculated h = false
  /\ lifecycle_of_flags h = Created.
Proof. intros h. repeat split. Qed.

(* ------------------------------------------------------------------ *)
(** ** The length of the legacy record *)

(** On a [sequences] tensor without dimensions the failure comes from
    [shape[-1]], before [len] is reached. *)
Lemma legacy_len_of_scalar_sequences :
  ContinuationData.__len__ (Samples.legacy (torch.scalar 7)) =
  Py.Raise Py.IndexError
  /\ ContinuationData.__len__ (Samples.legacy (torch.scalar 7)) <>
     Py.Raise Py.TypeError.
Proof. split; [reflexivity | discriminate]. Qed.

(** C10 (amended). [len(c)] returns a number for no legacy record [c]:
    when [sequences] has a last dimension, its size is an integer and
    [len] of it raises [TypeError]; when [sequences] has no dimension,
    [shape[-1]] raises [IndexError]. *)
Theorem legacy_len_never_returns (c : ContinuationData.t) :
  (forall n, ContinuationData.__len__ c <> Py.Ok n)
  /\ (torch.shape (ContinuationData.sequences c) <> [] ->
      ContinuationData.__len__ c = Py.Raise Py.TypeError)
  /\ (torch.shape (ContinuationData.sequences c) = [] ->
      ContinuationData.__len__ c = Py.Raise Py.IndexError).
Proof.
  assert (Hdim : torch.shape (ContinuationData.sequences c) <> [] ->
                 ContinuationData.__len__ c = Py.Raise Py.TypeError).
  { intros Hne. unfold ContinuationData.__len__, torch.shape_last.
    destruct (tuple_getitem_minus_one Z
                (map Z.of_nat (torch.shape (ContinuationData.sequences c))))
      as [d ->].
    - intros E. apply map_eq_nil in E. exact (Hne E).
    - reflexivity. }
  assert (Hnodim : torch.shape (ContinuationData.sequences c) = [] ->
                   ContinuationData.__len__ c = Py.Raise Py.IndexError).
  { intros E. unfold ContinuationData.__len__, torch.shape_last.
    rewrite E. reflexivity. }
  split; [| split; assumption].
  intros n.
  destruct (torch.shape (ContinuationData.sequences c)) eqn:Hs.
  - rewrite Hnodim by reflexivity. discriminate.
  - rewrite Hdim by discriminate. discriminate.
Qed.

Lemma legacy_len_never_returns_witness :
  ContinuationData.__len__ (Samples.legacy (torch.tensor1 [101; 2023])) =
  Py.Raise Py.TypeError.
Proof.
  apply (proj1 (proj2 (legacy_len_never_returns
                         (Samples.legacy (torch.tensor1 [101; 2023]))))).
  discriminate.
Defined.

(* ------------------------------------------------------------------ *)
(** ** Binary64 comparison *)

Section FloatOrder.

Local Open Scope positive_scope.

Lemma pos_compare_cont_eq (m1 m2 : positive) :
  Pos.compare_cont Eq m1 m2 = Pos.compare m1 m2.
Proof. reflexivity. Qed.

Ltac order_cases :=
  repeat match goal with
         | H : context [Pos.compare_cont Eq ?a ?b] |- _ =>
             rewrite (pos_compare_cont_eq a b) in H
         | |- context [Pos.compare_cont Eq ?a ?b] =>
             rewrite (pos_compare_cont_eq a b)
         end;
  repeat match goal with
         | |- context [Z.compare ?a ?b] =>
             destruct (Z.compare_spec a b); subst
         | |- context [Pos.compare ?a ?b] =>
             destruct (Pos.compare_spec a b); subst
         | H : context [Z.compare ?a ?b] |- _ =>
             destruct (Z.compare_spec a b); subst
         | H : context [Pos.compare ?a ?b] |- _ =>
             destruct (Pos.compare_spec a b); subst
         end;
  cbn [CompOpp] in *; try discriminate; try reflexivity; try lia.

Lemma SFltb_irrefl (x : spec_float) : SFltb x x = false.
Proof.
  unfold SFltb. destruct x as [s | s | | s m e]; try destruct s; simpl;
    rewrite ?pos_compare_cont_eq, ?Z.compare_refl, ?Pos.compare_refl;
    reflexivity.
Qed.

Lemma SFltb_trans (x y z : spec_float) :
  SFltb x y = true -> SFltb y z = true -> SFltb x z = true.
Proof.
  unfold SFltb.
  destruct x as [sx | sx | | sx mx ex]; try destruct sx;
    destruct y as [sy | sy | | sy my ey]; try destruct sy;
    simpl; try discriminate;
    destruct z as [sz | sz | | sz mz ez]; try destruct sz;
    simpl; try discriminate; try reflexivity;
    intros Hxy Hyz; order_cases.
Qed.

Lemma SFltb_asym (x y : spec_float) :
  SFltb x y = true -> SFltb y x = false.
Proof.
  intros Hxy. destruct (SFltb y x) eqn:Hyx; [| reflexivity].
  pose proof (SFltb_trans x y x Hxy Hyx) as Hxx.
  rewrite SFltb_irrefl in Hxx. discriminate.
Qed.

Lemma SFltb_nan_l (y : spec_float) : SFltb S754_nan y = false.
Proof. reflexivity. Qed.

Lemma SFltb_nan_r (x : spec_float) : SFltb x S754_nan = false.
Proof. destruct x; reflexivity. Qed.

End FloatOrder.

Lemma float_ltb_irrefl (x : float) : PrimFloat.ltb x x = false.
Proof. rewrite ltb_spec. apply SFltb_irrefl. Qed.

Lemma float_ltb_asym (x y : float) :
  PrimFloat.ltb x y = true -> PrimFloat.ltb y x = false.
Proof. rewrite !ltb_spec. apply SFltb_asym. Qed.

Lemma float_ltb_trans (x y z : float) :
  PrimFloat.ltb x y = true -> PrimFloat.ltb y z = true ->
  PrimFloat.ltb x z = true.
Proof. rewrite !ltb_spec. apply SFltb_trans. Qed.

Lemma float_ltb_nan (x y : float) :
  PrimFloat.is_nan x = true ->
  PrimFloat.ltb x y = false /\ PrimFloat.ltb y x = false.
Proof.
  intros Hnan. rewrite !ltb_spec.
  assert (Hx : Prim2SF x = S754_nan).
  { unfold PrimFloat.is_nan in Hnan. rewrite eqb_spec in Hnan.
    unfold SFeqb in Hnan.
    destruct (Prim2SF x) as [s | s | | s m e] eqn:E; try reflexivity;
      try destruct s; simpl in Hnan;
      rewrite ?Z.compare_refl, ?Pos.compare_cont_refl in Hnan;
      simpl in Hnan; try discriminate. }
  rewrite Hx. split; [apply SFltb_nan_l | apply SFltb_nan_r].
Qed.

(* ------------------------------------------------------------------ *)
(** ** Length, equality and hash of syntactic hypotheses *)

Lemma last_map (A B : Type) (f : A -> B) (l : list A) (d : A) :
  last (map f l) (f d) = f (last l d).
Proof.
  induction l as [| x l IH]; [reflexivity |].
  destruct l as [| y l]; [reflexivity |]. exact IH.
Qed.

Lemma nth_error_last (A : Type) (l : list A) (d : A) :
  l <> [] -> nth_error l (length l - 1) = Some (last l d).
Proof.
  induction l as [| x l IH]; intros Hne; [congruence |].
  destruct l as [| y l]; [reflexivity |].
  replace (length (x :: y :: l) - 1)%nat with (S (length (y :: l) - 1))
    by (simpl; lia).
  cbn [nth_error]. rewrite IH by discriminate. reflexivity.
Qed.

Lemma tuple_getitem_minus_one_last (A : Type) (t : list A) (d : A) :
  t <> [] -> Py.tuple_getitem t (-1) = Py.Ok (last t d).
Proof.
  intros Ht.
  destruct (tuple_getitem_minus_one A t Ht) as [x Hx]. rewrite Hx.
  unfold Py.tuple_getitem in Hx. cbv zeta in Hx.
  change (-1 <? 0) with true in Hx. cbv iota in Hx.
  assert (Hlen : (0 < length t)%nat) by (destruct t; [congruence | simpl; lia]).
  destruct ((-1 + Z.of_nat (length t) <? 0)
            || (Z.of_nat (length t) <=? -1 + Z.of_nat (length t))); [discriminate |].
  replace (Z.to_nat (-1 + Z.of_nat (length t))) with (length t - 1)%nat in Hx by lia.
  rewrite (nth_error_last A t d Ht) in Hx. congruence.
Qed.

Lemma shape_last_of_dims (A : Type) (t : torch.Tensor A) :
  torch.shape t <> [] ->
  torch.shape_last t = Py.Ok (Z.of_nat (torch.last_dim t)).
Proof.
  intros Hne. unfold torch.shape_last, torch.last_dim.
  rewrite (tuple_getitem_minus_one_last Z _ (Z.of_nat 0)).
  - rewrite last_map. reflexivity.
  - intros E. apply map_eq_nil in E. exact (Hne E).
Qed.

Lemma shape_last_of_scalar (A : Type) (t : torch.Tensor A) :
  torch.shape t = [] -> torch.shape_last t = Py.Raise Py.IndexError.
Proof. intros E. unfold torch.shape_last. rewrite E. reflexivity. Qed.

(** X1. [len(h)] of a syntactic hypothesis is the size of the last
    dimension of its [sequences] whenever the tensor has a dimension,
    and an [IndexError] when it has none; it is the same as the length
    of the continuation the hypothesis carries. *)
Theorem syntactic_hypothesis_len_last_dimension (h : SyntacticHypothesis.t) :
  (torch.shape (SyntacticHypothesis.sequences h) <> [] ->
   SyntacticHypothesis.__len__ h =
   Py.Ok (Z.of_nat (torch.last_dim (SyntacticHypothesis.sequences h))))
  /\ (torch.shape (SyntacticHypothesis.sequences h) = [] ->
      SyntacticHypothesis.__len__ h = Py.Raise Py.IndexError)
  /\ SyntacticHypothesis.__len__ h =
     SyntacticHypothesisContinuationData.__len__
       (SyntacticHypothesis.syntactic_hypothesis h).
Proof.
  split; [| split].
  - apply shape_last_of_dims.
  - apply shape_last_of_scalar.
  - reflexivity.
Qed.

Lemma syntactic_hypothesis_len_last_dimension_witness :
  SyntacticHypothesis.__len__ Samples.h1 = Py.Ok 2.
Proof.
  apply (proj1 (syntactic_hypothesis_len_last_dimension Samples.h1)).
  discriminate.
Defined.

(** X2. [==] on syntactic hypotheses is an equivalence: reflexive,
    symmetric and transitive. *)
Theorem syntactic_hypothesis_eq_equivalence :
  (forall a, SyntacticHypothesis.__eq__ a a = true)
  /\ (forall a b, SyntacticHypothesis.__eq__ a b = SyntacticHypothesis.__eq__ b a)
  /\ (forall a b c,
        SyntacticHypothesis.__eq__ a b = true ->
        SyntacticHypothesis.__eq__ b c = true ->
        SyntacticHypothesis.__eq__ a c = true).
Proof.
  unfold SyntacticHypothesis.__eq__. split; [| split].
  - intros a. apply torch_equal_eq. reflexivity.
  - intros a b.
    destruct (torch.equal (SyntacticHypothesis.sequences a)
                (SyntacticHypothesis.sequences b)) eqn:Hab;
      destruct (torch.equal (SyntacticHypothesis.sequences b)
                  (SyntacticHypothesis.sequences a)) eqn:Hba;
      try reflexivity.
    + apply torch_equal_eq in Hab. symmetry in Hab.
      apply torch_equal_eq in Hab. congruence.
    + apply torch_equal_eq in Hba. symmetry in Hba.
      apply torch_equal_eq in Hba. congruence.
  - intros a b c Hab Hbc. apply torch_equal_eq in Hab, Hbc.
    apply torch_equal_eq. congruence.
Qed.

Lemma syntactic_hypothesis_eq_equivalence_witness :
  SyntacticHypothesis.__eq__ Samples.twin_b Samples.twin_a = true.
Proof.
  rewrite (proj1 (proj2 syntactic_hypothesis_eq_equivalence)).
  reflexivity.
Defined.

(** X3. Hypotheses that compare equal have the same length, be it a
    number or the [IndexError] of a tensor without dimension. *)
Theorem equal_hypotheses_have_equal_len (a b : SyntacticHypothesis.t) :
  SyntacticHypothesis.__eq__ a b = true ->
  SyntacticHypothesis.__len__ a = SyntacticHypothesis.__len__ b.
Proof.
  unfold SyntacticHypothesis.__eq__, SyntacticHypothesis.__len__.
  intros E. apply torch_equal_eq in E. rewrite E. reflexivity.
Qed.

Lemma equal_hypotheses_have_equal_len_witness :
  SyntacticHypothesis.__len__ Samples.twin_a =
  SyntacticHypothesis.__len__ Samples.twin_b.
Proof.
  apply equal_hypotheses_have_equal_len. reflexivity.
Defined.

Lemma syntactic_hypothesis_hash_ignores_tokens_witness :
  SyntacticHypothesis.__hash__ Samples.heap_b Samples.h1 =
  SyntacticHypothesis.__hash__ Samples.heap_b Samples.h4.
Proof.
  apply syntactic_hypothesis_hash_ignores_tokens. reflexivity.
Defined.

(* ------------------------------------------------------------------ *)
(** ** The order of semantic hypotheses *)

(** X5. [<] on semantic hypotheses is a strict order: no hypothesis is
    below itself, two hypotheses are never below each other, and the
    relation is transitive.  A hypothesis whose score is not a number is
    neither below nor above any other.  [a > b] is answered by the
    reflected [__lt__], so it is [b < a]. *)
Theorem semantic_hypothesis_lt_strict_order :
  (forall a, Py.less_than SemanticHypothesis.ordering a a = Py.Ok false)
  /\ (forall a b,
        Py.less_than SemanticHypothesis.ordering a b = Py.Ok true ->
        Py.less_than SemanticHypothesis.ordering b a = Py.Ok false)
  /\ (forall a b c,
        Py.less_than SemanticHypothesis.ordering a b = Py.Ok true ->
        Py.less_than SemanticHypothesis.ordering b c = Py.Ok true ->
        Py.less_than SemanticHypothesis.ordering a c = Py.Ok true)
  /\ (forall a b,
        PrimFloat.is_nan (SemanticHypothesis.score a) = true ->
        Py.less_than SemanticHypothesis.ordering a b = Py.Ok false
        /\ Py.less_than SemanticHypothesis.ordering b a = Py.Ok false)
  /\ (forall a b,
        PyOrder.greater_than SemanticHypothesis.ordering a b =
        Py.less_than SemanticHypothesis.ordering b a).
Proof.
  unfold Py.less_than, PyOrder.greater_than.
  cbn [Py.slot Py.tp_lt Py.tp_gt SemanticHypothesis.ordering].
  unfold SemanticHypothesis.__lt__.
  split; [| split; [| split; [| split]]].
  - intros a. rewrite float_ltb_irrefl. reflexivity.
  - intros a b Hab. injection Hab as Hab.
    rewrite (float_ltb_asym _ _ Hab). reflexivity.
  - intros a b c Hab Hbc. injection Hab as Hab. injection Hbc as Hbc.
    rewrite (float_ltb_trans _ _ _ Hab Hbc). reflexivity.
  - intros a b Hnan.
    destruct (float_ltb_nan (SemanticHypothesis.score a)
                (SemanticHypothesis.score b) Hnan) as [-> ->].
    split; reflexivity.
  - reflexivity.
Qed.

Lemma semantic_hypothesis_lt_strict_order_witness :
  Py.less_than SemanticHypothesis.ordering
    (Samples.semantic "0-A" (-0.1)%float [Samples.h1; Samples.h2])
    (Samples.semantic "1-B" (-0.2)%float [Samples.h3; Samples.h4]) = Py.Ok false.
Proof.
  apply (proj1 (proj2 semantic_hypothesis_lt_strict_order)).
  vm_compute. reflexivity.
Defined.

(* ------------------------------------------------------------------ *)
(** ** The text of the continuation records *)

Section PrintingFacts.

Variable str_ints : torch.Tensor Z -> string.
Variable str_floats : torch.Tensor float -> string.
Variable str_size : list nat -> string.

Lemma fields_text_without_layers
    (sequences : torch.Tensor Z) (ts lbs : torch.Tensor float)
    (mask : torch.Tensor Z) :
  Printing.fields_text str_ints str_floats str_size sequences ts lbs [] mask =
  Py.Raise Py.IndexError.
Proof. reflexivity. Qed.

Lemma fields_text_with_layers
    (sequences : torch.Tensor Z) (ts lbs : torch.Tensor float)
    (pkv : past_key_values_t) (mask : torch.Tensor Z) :
  pkv <> [] ->
  exists text,
    Printing.fields_text str_ints str_floats str_size sequences ts lbs pkv mask =
    Py.Ok text.
Proof.
  intros Hne. destruct pkv as [| layer pkv]; [congruence |].
  eexists. reflexivity.
Qed.

Lemma substring_prefix (s t : string) :
  String.substring 0 (String.length s) (s ++ t)%string = s.
Proof.
  induction s as [| c s IH]; simpl.
  - destruct t; reflexivity.
  - rewrite IH. reflexivity.
Qed.

Lemma string_length_app (s t : string) :
  String.length (s ++ t)%string = (String.length s + String.length t)%nat.
Proof.
  induction s as [| c s IH]; simpl; [reflexivity |].
  rewrite IH. reflexivity.
Qed.

Lemma drop_last_closing (s : string) :
  PyText.drop_last (s ++ ")")%string = s.
Proof.
  unfold PyText.drop_last.
  replace (String.length (s ++ ")") - 1)%nat with (String.length s).
  - apply substring_prefix.
  - rewrite string_length_app. simpl. lia.
Qed.

(** X6. The text of a continuation record takes the shape of the first
    cached layer from [past_key_values[0]]: [__repr__] of the sliced
    data, of the continuation data and of the legacy record raises
    [IndexError] when [past_key_values] is empty, and returns a text
    otherwise. *)
Theorem continuation_repr_needs_a_layer :
  (forall d : SyntacticHypothesisData.t,
      (SyntacticHypothesisData.past_key_values d = [] ->
       Printing.SyntacticHypothesisData__repr__ str_ints str_floats str_size d =
       Py.Raise Py.IndexError)
      /\ (SyntacticHypothesisData.past_key_values d <> [] ->
          exists text,
            Printing.SyntacticHypothesisData__repr__ str_ints str_floats str_size d =
            Py.Ok text))
  /\ (forall c : SyntacticHypothesisContinuationData.t,
        (SyntacticHypothesisData.past_key_values
           (SyntacticHypothesisContinuationData.base c) = [] ->
         Printing.SyntacticHypothesisContinuationData__repr__
           str_ints str_floats str_size c = Py.Raise Py.IndexError)
        /\ (SyntacticHypothesisData.past_key_values
              (SyntacticHypothesisContinuationData.base c) <> [] ->
            exists text,
              Printing.SyntacticHypothesisContinuationData__repr__
                str_ints str_floats str_size c = Py.Ok text))
  /\ (forall c : ContinuationData.t,
        (ContinuationData.past_key_values c = [] ->
         Printing.ContinuationData__repr__ str_ints str_floats str_size c =
         Py.Raise Py.IndexError)
        /\ (ContinuationData.past_key_values c <> [] ->
            exists text,
              Printing.ContinuationData__repr__ str_ints str_floats str_size c =
              Py.Ok text)).
Proof.
  split; [| split].
  - intros d. unfold Printing.SyntacticHypothesisData__repr__. split.
    + intros ->. reflexivity.
    + intros Hne.
      destruct (fields_text_with_layers
                  (SyntacticHypothesisData.sequences d)
                  (SyntacticHypothesisData.transition_scores d)
                  (SyntacticHypothesisData.last_beam_scores d)
                  (SyntacticHypothesisData.past_key_values d)
                  (SyntacticHypothesisData.attention_mask d) Hne) as [text ->].
      eexists. reflexivity.
  - intros c.
    unfold Printing.SyntacticHypothesisContinuationData__repr__,
      Printing.SyntacticHypothesisData__repr__. split.
    + intros ->. reflexivity.
    + intros Hne.
      destruct (fields_text_with_layers
                  (SyntacticHypothesisData.sequences (SyntacticHypothesisContinuationData.base c))
                  (SyntacticHypothesisData.transition_scores (SyntacticHypothesisContinuationData.base c))
                  (SyntacticHypothesisData.last_beam_scores (SyntacticHypothesisContinuationData.base c))
                  (SyntacticHypothesisData.past_key_values (SyntacticHypothesisContinuationData.base c))
                  (SyntacticHypothesisData.attention_mask (SyntacticHypothesisContinuationData.base c))
                  Hne) as [text ->].
      eexists. reflexivity.
  - intros c. unfold Printing.ContinuationData__repr__. split.
    + intros ->. reflexivity.
    + intros Hne.
      destruct (fields_text_with_layers
                  (ContinuationData.sequences c)
                  (ContinuationData.transition_scores c)
                  (ContinuationData.last_beam_scores c)
                  (ContinuationData.past_key_values c)
                  (ContinuationData.attention_mask c) Hne) as [text ->].
      eexists. reflexivity.
Qed.

(** X7. Where the sliced data prints as [text] followed by a closing
    parenthesis, the continuation data prints as the same [text], the
    note on [unshortened_data] and the parenthesis: dropping the last
    character of the inherited text removes exactly that parenthesis. *)
Theorem continuation_repr_extends_base
    (c : SyntacticHypothesisContinuationData.t) :
  SyntacticHypothesisData.past_key_values
    (SyntacticHypothesisContinuationData.base c) <> [] ->
  exists text,
    Printing.SyntacticHypothesisData__repr__ str_ints str_floats str_size
      (SyntacticHypothesisContinuationData.base c) = Py.Ok (text ++ ")")%string
    /\ Printing.SyntacticHypothesisContinuationData__repr__
         str_ints str_floats str_size c =
       Py.Ok (text ++ ", unshortened_data="
              ++ Printing.availability
                   (SyntacticHypothesisContinuationData.unshortened_data c)
              ++ ")")%string.
Proof.
  intros Hne.
  unfold Printing.SyntacticHypothesisContinuationData__repr__,
    Printing.SyntacticHypothesisData__repr__.
  destruct (fields_text_with_layers
              (SyntacticHypothesisData.sequences (SyntacticHypothesisContinuationData.base c))
              (SyntacticHypothesisData.transition_scores (SyntacticHypothesisContinuationData.base c))
              (SyntacticHypothesisData.last_beam_scores (SyntacticHypothesisContinuationData.base c))
              (SyntacticHypothesisData.past_key_values (SyntacticHypothesisContinuationData.base c))
              (SyntacticHypothesisData.attention_mask (SyntacticHypothesisContinuationData.base c))
              Hne) as [text ->].
  exists text. cbn [Py.bind]. rewrite drop_last_closing. split; reflexivity.
Qed.

End PrintingFacts.

Lemma continuation_repr_needs_a_layer_witness :
  Printing.SyntacticHypothesisContinuationData__repr__
    MoreSamples.show_ints MoreSamples.show_floats MoreSamples.show_size
    (Samples.fresh [101; 2023]) = Py.Raise Py.IndexError
  /\ exists text,
       Printing.ContinuationData__repr__
         MoreSamples.show_ints MoreSamples.show_floats MoreSamples.show_size
         MoreSamples.legacy_cached = Py.Ok text.
Proof.
  split.
  - apply (proj1 (proj2 (continuation_repr_needs_a_layer
                           MoreSamples.show_ints MoreSamples.show_floats
                           MoreSamples.show_size))).
    reflexivity.
  - apply (proj2 (proj2 (continuation_repr_needs_a_layer
                           MoreSamples.show_ints MoreSamples.show_floats
                           MoreSamples.show_size))).
    discriminate.
Defined.

Lemma continuation_repr_extends_base_witness :
  exists text,
    Printing.SyntacticHypothesisData__repr__
      MoreSamples.show_ints MoreSamples.show_floats MoreSamples.show_size
      (SyntacticHypothesisContinuationData.base MoreSamples.cached) =
    Py.Ok (text ++ ")")%string
    /\ Printing.SyntacticHypothesisContinuationData__repr__
         MoreSamples.show_ints MoreSamples.show_floats MoreSamples.show_size
         MoreSamples.cached =
       Py.Ok (text ++ ", unshortened_data=None)")%string.
Proof.
  apply (continuation_repr_extends_base
           MoreSamples.show_ints MoreSamples.show_floats MoreSamples.show_size
           MoreSamples.cached).
  discriminate.
Defined.

Example cached_continuation_text :
  Printing.SyntacticHypothesisContinuationData__repr__
    MoreSamples.show_ints MoreSamples.show_floats MoreSamples.show_size
    MoreSamples.cached =
  Py.Ok "ContinuationData(sequences=tensor, transition_scores=tensor, last_beam_scores=tensor, past_key_values=(Shape [1, 2, size, attention_mask=tensor, unshortened_data=None)"%string.
Proof. vm_compute. reflexivity. Qed.

(* ------------------------------------------------------------------ *)
(** ** Deep comparison of values *)

Section FloatEquality.

Lemma SFeqb_sym (x y : spec_float) : SFeqb x y = SFeqb y x.
Proof.
  unfold SFeqb.
  destruct x as [sx | sx | | sx mx ex]; try destruct sx;
    destruct y as [sy | sy | | sy my ey]; try destruct sy;
    simpl; try reflexivity;
    repeat match goal with
           | |- context [Pos.compare_cont Eq ?a ?b] =>
               rewrite (pos_compare_cont_eq a b)
           end;
    match goal with
    | |- context [Z.compare ?e1 ?e2] =>
        rewrite (Z.compare_antisym e1 e2); destruct (Z.compare e1 e2)
    end;
    simpl; try reflexivity;
    match goal with
    | |- context [Pos.compare ?m1 ?m2] =>
        rewrite (Pos.compare_antisym m1 m2); destruct (Pos.compare m1 m2)
    end;
    reflexivity.
Qed.

Ltac compare_cases :=
  repeat match goal with
         | H : context [Pos.compare_cont Eq ?a ?b] |- _ =>
             rewrite (pos_compare_cont_eq a b) in H
         | |- context [Pos.compare_cont Eq ?a ?b] =>
             rewrite (pos_compare_cont_eq a b)
         end;
  repeat match goal with
         | H : context [Z.compare ?a ?b] |- _ =>
             destruct (Z.compare_spec a b); subst; try discriminate
         | H : context [Pos.compare ?a ?b] |- _ =>
             destruct (Pos.compare_spec a b); subst; try discriminate
         end;
  rewrite ?Z.compare_refl, ?Pos.compare_refl; try reflexivity.

Lemma SFeqb_trans (x y z : spec_float) :
  SFeqb x y = true -> SFeqb y z = true -> SFeqb x z = true.
Proof.
  unfold SFeqb.
  destruct x as [sx | sx | | sx mx ex]; try destruct sx;
    destruct y as [sy | sy | | sy my ey]; try destruct sy;
    simpl; try discriminate;
    destruct z as [sz | sz | | sz mz ez]; try destruct sz;
    simpl; try discriminate; try reflexivity;
    intros Hxy Hyz; compare_cases.
Qed.

End FloatEquality.

Lemma float_eqb_sym (x y : float) : PrimFloat.eqb x y = PrimFloat.eqb y x.
Proof. rewrite !eqb_spec. apply SFeqb_sym. Qed.

Lemma float_eqb_trans (x y z : float) :
  PrimFloat.eqb x y = true -> PrimFloat.eqb y z = true ->
  PrimFloat.eqb x z = true.
Proof. rewrite !eqb_spec. apply SFeqb_trans. Qed.

Lemma float_eqb_refl (x : float) :
  PrimFloat.is_nan x = false -> PrimFloat.eqb x x = true.
Proof. unfold PrimFloat.is_nan. apply negb_false_iff. Qed.

Module ValueFacts.

Import PyValue.

(** Induction that reaches the items of lists and the values of
    dicts. *)
Section Induction.

Variable P : value -> Prop.
Hypothesis HNone : P VNone.
Hypothesis HBool : forall b, P (VBool b).
Hypothesis HInt : forall n, P (VInt n).
Hypothesis HFloat : forall x, P (VFloat x).
Hypothesis HStr : forall s, P (VStr s).
Hypothesis HList : forall items, Forall P items -> P (VList items).
Hypothesis HDict :
  forall entries, Forall (fun e => P (snd e)) entries -> P (VDict entries).

Fixpoint value_nested_ind (v : value) : P v :=
  match v with
  | VNone => HNone
  | VBool b => HBool b
  | VInt n => HInt n
  | VFloat x => HFloat x
  | VStr s => HStr s
  | VList items =>
      HList items
        ((fix go (xs : list value) : Forall P xs :=
            match xs with
            | [] => Forall_nil P
            | x :: xs' => Forall_cons x (value_nested_ind x) (go xs')
            end) items)
  | VDict entries =>
      HDict entries
        ((fix go (es : list (string * value)) : Forall (fun e => P (snd e)) es :=
            match es with
            | [] => Forall_nil _
            | e :: es' =>
                Forall_cons e (value_nested_ind (snd e)) (go es')
            end) entries)
  end.

End Induction.

(** *** The two loops as list functions *)

Definition entry_matches (d2 : list (string * value)) (e : string * value) : bool :=
  match getitem d2 (fst e) with
  | Some v2 => deep_compare (snd e) v2
  | None => false
  end.

Lemma deep_compare_dict (d1 d2 : list (string * value)) :
  deep_compare (VDict d1) (VDict d2) =
  keys_equal d1 d2 && forallb (entry_matches d2) d1.
Proof.
  cbn [deep_compare type_of pytype_eqb negb].
  destruct (keys_equal d1 d2); [| reflexivity]. cbn [negb andb].
  induction d1 as [| [k v1] d1 IH]; [reflexivity |].
  cbn [forallb]. unfold entry_matches at 1. cbn [fst snd].
  destruct (getitem d2 k) as [v2 |]; [| reflexivity].
  rewrite IH. reflexivity.
Qed.

Definition pair_matches (p : value * value) : bool :=
  deep_compare (fst p) (snd p).

Lemma deep_compare_list (l1 l2 : list value) :
  deep_compare (VList l1) (VList l2) =
  Nat.eqb (length l1) (length l2) && forallb pair_matches (combine l1 l2).
Proof.
  cbn [deep_compare type_of pytype_eqb negb].
  destruct (Nat.eqb (length l1) (length l2)); [| reflexivity].
  cbn [negb andb]. revert l2.
  induction l1 as [| x l1 IH]; intros l2; [reflexivity |].
  destruct l2 as [| y l2]; [reflexivity |].
  cbn [combine forallb]. unfold pair_matches at 1. cbn [fst snd].
  rewrite IH. reflexivity.
Qed.

Lemma deep_compare_types (a b : value) :
  deep_compare a b = true -> type_of a = type_of b.
Proof.
  destruct a, b; simpl; intros E; try discriminate; reflexivity.
Qed.

Lemma well_formed_list (items : list value) :
  well_formed (VList items) <-> Forall well_formed items.
Proof.
  induction items as [| x items IH]; simpl.
  - split; [constructor | trivial].
  - split.
    + intros [Hx Hr]. constructor; [exact Hx | apply IH, Hr].
    + intros HF. inversion HF; subst. split; [assumption | apply IH; assumption].
Qed.

Lemma well_formed_dict (entries : list (string * value)) :
  well_formed (VDict entries) <->
  NoDup (keys entries) /\ Forall (fun e => well_formed (snd e)) entries.
Proof.
  cbn [well_formed]. apply and_iff_compat_l.
  induction entries as [| e entries IH].
  - split; [constructor | trivial].
  - split.
    + intros [He Hr]. constructor; [exact He | apply IH, Hr].
    + intros HF. inversion HF; subst. split; [assumption | apply IH; assumption].
Qed.

Lemma nan_free_list (items : list value) :
  nan_free (VList items) <-> Forall nan_free items.
Proof.
  induction items as [| x items IH]; simpl.
  - split; [constructor | trivial].
  - split.
    + intros [Hx Hr]. constructor; [exact Hx | apply IH, Hr].
    + intros HF. inversion HF; subst. split; [assumption | apply IH; assumption].
Qed.

Lemma nan_free_dict (entries : list (string * value)) :
  nan_free (VDict entries) <-> Forall (fun e => nan_free (snd e)) entries.
Proof.
  induction entries as [| e entries IH]; simpl.
  - split; [constructor | trivial].
  - split.
    + intros [He Hr]. constructor; [exact He | apply IH, Hr].
    + intros HF. inversion HF; subst. split; [assumption | apply IH; assumption].
Qed.

Lemma plain_list (items : list value) :
  plain (VList items) <-> Forall plain items.
Proof.
  induction items as [| x items IH]; simpl.
  - split; [constructor | trivial].
  - split.
    + intros [Hx Hr]. constructor; [exact Hx | apply IH, Hr].
    + intros HF. inversion HF; subst. split; [assumption | apply IH; assumption].
Qed.

(** *** Lookup in a dict *)

Lemma has_key_In (d : list (string * value)) (k : string) :
  has_key d k = true <-> In k (keys d).
Proof.
  unfold has_key. rewrite existsb_exists. split.
  - intros [k' [Hin E]]. apply String.eqb_eq in E. subst. exact Hin.
  - intros Hin. exists k. split; [exact Hin | apply String.eqb_refl].
Qed.

Lemma getitem_In (d : list (string * value)) (k : string) (v : value) :
  getitem d k = Some v -> In (k, v) d.
Proof.
  induction d as [| [k' v'] d IH]; simpl; [discriminate |].
  destruct (String.eqb k k') eqn:E.
  - apply String.eqb_eq in E. intros [= <-]. subst. left. reflexivity.
  - intros H. right. apply IH, H.
Qed.

Lemma In_getitem (d : list (string * value)) (k : string) (v : value) :
  NoDup (keys d) -> In (k, v) d -> getitem d k = Some v.
Proof.
  induction d as [| [k' v'] d IH]; simpl; intros Hnd Hin; [destruct Hin |].
  inversion Hnd as [| ? ? Hk' Hnd']; subst.
  destruct Hin as [[= -> ->] | Hin].
  - rewrite String.eqb_refl. reflexivity.
  - destruct (String.eqb k k') eqn:E.
    + apply String.eqb_eq in E. subst k'. exfalso. apply Hk'.
      apply (in_map fst) in Hin. exact Hin.
    + apply IH; assumption.
Qed.

Lemma In_keys_entry (d : list (string * value)) (k : string) :
  In k (keys d) -> exists v, In (k, v) d.
Proof.
  unfold keys. intros Hin. apply in_map_iff in Hin.
  destruct Hin as [[k' v] [E Hin]]. simpl in E. subst. exists v. exact Hin.
Qed.

Lemma keys_equal_spec (d1 d2 : list (string * value)) :
  keys_equal d1 d2 = true <->
  length d1 = length d2 /\ incl (keys d1) (keys d2).
Proof.
  unfold keys_equal. rewrite andb_true_iff, Nat.eqb_eq, forallb_forall.
  apply and_iff_compat_l. unfold incl. split.
  - intros H k Hk. apply has_key_In, H, Hk.
  - intros H k Hk. apply has_key_In, H, Hk.
Qed.

Lemma keys_equal_sym (d1 d2 : list (string * value)) :
  NoDup (keys d1) -> keys_equal d1 d2 = true -> keys_equal d2 d1 = true.
Proof.
  rewrite !keys_equal_spec. intros Hnd [Hlen Hincl]. split; [congruence |].
  apply NoDup_length_incl; [exact Hnd | | exact Hincl].
  unfold keys. rewrite !length_map. lia.
Qed.

Lemma keys_equal_trans (d1 d2 d3 : list (string * value)) :
  keys_equal d1 d2 = true -> keys_equal d2 d3 = true -> keys_equal d1 d3 = true.
Proof.
  rewrite !keys_equal_spec. intros [L12 I12] [L23 I23].
  split; [congruence |]. intros k Hk. apply I23, I12, Hk.
Qed.

Lemma dict_matches_spec (d1 d2 : list (string * value)) :
  forallb (entry_matches d2) d1 = true <->
  forall k v1, In (k, v1) d1 ->
               exists v2, getitem d2 k = Some v2 /\ deep_compare v1 v2 = true.
Proof.
  rewrite forallb_forall. unfold entry_matches. split.
  - intros H k v1 Hin. specialize (H (k, v1) Hin). cbn [fst snd] in H.
    destruct (getitem d2 k) as [v2 |]; [| discriminate]. eauto.
  - intros H [k v1] Hin. cbn [fst snd].
    destruct (H k v1 Hin) as [v2 [-> E]]. exact E.
Qed.

End ValueFacts.

Section DeepCompare.

Import PyValue ValueFacts.

Lemma scalar_eq_sym (a b : value) : scalar_eq a b = scalar_eq b a.
Proof.
  destruct a, b; simpl; try reflexivity.
  - destruct b, b0; reflexivity.
  - apply Z.eqb_sym.
  - apply float_eqb_sym.
  - apply String.eqb_sym.
Qed.

Lemma list_matches_sym (l1 l2 : list value) :
  Forall (fun x => forall b, well_formed x -> well_formed b ->
                             deep_compare x b = true -> deep_compare b x = true) l1 ->
  Forall well_formed l1 -> Forall well_formed l2 ->
  forallb pair_matches (combine l1 l2) = true ->
  forallb pair_matches (combine l2 l1) = true.
Proof.
  intros IH. revert l2.
  induction IH as [| x l1 Hx _ IHl]; intros l2 W1 W2 H.
  - destruct l2; reflexivity.
  - destruct l2 as [| y l2]; [reflexivity |].
    inversion W1; inversion W2; subst.
    cbn [combine forallb] in *. apply andb_true_iff in H. destruct H as [Hxy Hr].
    apply andb_true_iff. split.
    + unfold pair_matches in *. cbn [fst snd] in *. apply Hx; assumption.
    + apply IHl; assumption.
Qed.

Lemma deep_compare_true_sym (a : value) :
  forall b, well_formed a -> well_formed b ->
            deep_compare a b = true -> deep_compare b a = true.
Proof.
  induction a as [| b1 | n1 | x1 | s1 | l1 IH | d1 IH] using value_nested_ind;
    intros b Wa Wb H;
    try (destruct b; try discriminate H;
         cbn [deep_compare type_of pytype_eqb negb] in *;
         first [exact H | rewrite scalar_eq_sym; exact H]).
  - destruct b as [| | | | | l2 |]; try discriminate H.
    rewrite deep_compare_list in H |- *.
    apply andb_true_iff in H. destruct H as [Hlen Hall].
    apply andb_true_iff. split.
    + rewrite Nat.eqb_sym. exact Hlen.
    + apply well_formed_list in Wa, Wb.
      apply list_matches_sym; assumption.
  - destruct b as [| | | | | | d2]; try discriminate H.
    rewrite deep_compare_dict in H |- *.
    apply andb_true_iff in H. destruct H as [Hkeys Hall].
    apply well_formed_dict in Wa, Wb.
    destruct Wa as [N1 W1], Wb as [N2 W2].
    apply andb_true_iff. split; [apply keys_equal_sym; assumption |].
    rewrite dict_matches_spec in Hall |- *. intros k v2 Hin2.
    assert (Hk1 : In k (keys d1)).
    { apply keys_equal_sym in Hkeys; [| exact N1].
      apply keys_equal_spec in Hkeys. destruct Hkeys as [_ Hincl].
      apply Hincl. apply (in_map fst) in Hin2. exact Hin2. }
    destruct (In_keys_entry d1 k Hk1) as [v1 Hin1].
    exists v1. split; [apply In_getitem; assumption |].
    destruct (Hall k v1 Hin1) as [v2' [Hget Hdc]].
    rewrite (In_getitem d2 k v2 N2 Hin2) in Hget. injection Hget as <-.
    rewrite Forall_forall in IH, W1, W2.
    apply (IH (k, v1) Hin1); [apply (W1 (k, v1) Hin1) | apply (W2 (k, v2) Hin2) | exact Hdc].
Qed.

Lemma deep_compare_refl (a : value) :
  well_formed a -> nan_free a -> deep_compare a a = true.
Proof.
  induction a as [| b1 | n1 | x1 | s1 | l1 IH | d1 IH] using value_nested_ind;
    intros Wa Na.
  - reflexivity.
  - simpl. destruct b1; reflexivity.
  - simpl. apply Z.eqb_refl.
  - simpl. apply float_eqb_refl. exact Na.
  - simpl. apply String.eqb_refl.
  - rewrite deep_compare_list, Nat.eqb_refl. cbn [andb].
    apply well_formed_list in Wa. apply nan_free_list in Na.
    induction IH as [| x l1 Hx _ IHl]; [reflexivity |].
    inversion Wa; inversion Na; subst.
    cbn [combine forallb]. unfold pair_matches at 1. cbn [fst snd].
    rewrite Hx by assumption. apply IHl; assumption.
  - rewrite deep_compare_dict.
    apply well_formed_dict in Wa. destruct Wa as [N1 W1].
    apply nan_free_dict in Na.
    apply andb_true_iff. split.
    + apply keys_equal_spec. split; [reflexivity | apply incl_refl].
    + apply dict_matches_spec. intros k v Hin. exists v.
      split; [apply In_getitem; assumption |].
      rewrite Forall_forall in IH, W1, Na.
      apply (IH (k, v) Hin); [apply (W1 (k, v) Hin) | apply (Na (k, v) Hin)].
Qed.

Lemma scalar_eq_trans (a b c : value) :
  scalar_eq a b = true -> scalar_eq b c = true -> scalar_eq a c = true.
Proof.
  destruct a, b; simpl; try discriminate; destruct c; simpl; try discriminate;
    try reflexivity.
  - intros H1 H2. apply Bool.eqb_prop in H1, H2. subst. apply Bool.eqb_reflx.
  - intros H1 H2. apply Z.eqb_eq in H1, H2. subst. apply Z.eqb_refl.
  - apply float_eqb_trans.
  - intros H1 H2. apply String.eqb_eq in H1, H2. subst. apply String.eqb_refl.
Qed.

Lemma list_matches_trans (l1 : list value) :
  Forall (fun x => forall b c, deep_compare x b = true -> deep_compare b c = true ->
                               deep_compare x c = true) l1 ->
  forall l2 l3,
    length l1 = length l2 -> length l2 = length l3 ->
    forallb pair_matches (combine l1 l2) = true ->
    forallb pair_matches (combine l2 l3) = true ->
    forallb pair_matches (combine l1 l3) = true.
Proof.
  induction 1 as [| x l1 Hx _ IHl]; intros l2 l3 L12 L23 A12 A23; [reflexivity |].
  destruct l2 as [| y l2]; [discriminate L12 |].
  destruct l3 as [| z l3]; [discriminate L23 |].
  cbn [combine forallb length] in *.
  apply andb_true_iff in A12, A23.
  destruct A12 as [Hxy A12], A23 as [Hyz A23].
  apply andb_true_iff. split.
  - unfold pair_matches in *. cbn [fst snd] in *. eapply Hx; eassumption.
  - apply (IHl l2 l3); try assumption; lia.
Qed.

Lemma deep_compare_trans (a : value) :
  forall b c, deep_compare a b = true -> deep_compare b c = true ->
              deep_compare a c = true.
Proof.
  induction a as [| b1 | n1 | x1 | s1 | l1 IH | d1 IH] using value_nested_ind;
    intros b c Hab Hbc;
    try (destruct b; try discriminate Hab; destruct c; try discriminate Hbc;
         cbn [deep_compare type_of pytype_eqb negb] in *;
         eapply scalar_eq_trans; eassumption).
  - destruct b as [| | | | | l2 |]; try discriminate Hab.
    destruct c as [| | | | | l3 |]; try discriminate Hbc.
    rewrite deep_compare_list in Hab, Hbc |- *.
    apply andb_true_iff in Hab, Hbc.
    destruct Hab as [L12 A12], Hbc as [L23 A23].
    apply Nat.eqb_eq in L12, L23.
    apply andb_true_iff. split; [apply Nat.eqb_eq; congruence |].
    apply (list_matches_trans l1 IH l2 l3); assumption.
  - destruct b as [| | | | | | d2]; try discriminate Hab.
    destruct c as [| | | | | | d3]; try discriminate Hbc.
    rewrite deep_compare_dict in Hab, Hbc |- *.
    apply andb_true_iff in Hab, Hbc.
    destruct Hab as [K12 A12], Hbc as [K23 A23].
    apply andb_true_iff. split; [eapply keys_equal_trans; eassumption |].
    rewrite dict_matches_spec in A12, A23 |- *. intros k v1 Hin1.
    destruct (A12 k v1 Hin1) as [v2 [G2 D12]].
    destruct (A23 k v2 (getitem_In d2 k v2 G2)) as [v3 [G3 D23]].
    exists v3. split; [exact G3 |].
    rewrite Forall_forall in IH. apply (IH (k, v1) Hin1 v2 v3); assumption.
Qed.

(** On values without floats and dicts the comparison decides
    equality. *)
Lemma list_matches_eq (l1 : list value) :
  Forall (fun x => forall b, deep_compare x b = true -> x = b) l1 ->
  forall l2, length l1 = length l2 ->
             forallb pair_matches (combine l1 l2) = true -> l1 = l2.
Proof.
  induction 1 as [| x l1 Hx _ IHl]; intros l2 L A.
  - destruct l2; [reflexivity | discriminate L].
  - destruct l2 as [| y l2]; [discriminate L |].
    cbn [combine forallb length] in *.
    apply andb_true_iff in A. destruct A as [Hxy A].
    unfold pair_matches in Hxy. cbn [fst snd] in Hxy.
    f_equal; [apply Hx, Hxy | apply IHl; [lia | exact A]].
Qed.

Lemma deep_compare_plain_eq (a : value) :
  plain a -> forall b, deep_compare a b = true -> a = b.
Proof.
  induction a as [| b1 | n1 | x1 | s1 | l1 IH | d1 IH] using value_nested_ind;
    intros Pa b H; try (destruct Pa; fail);
    try (destruct b; try discriminate H;
         cbn [deep_compare type_of pytype_eqb negb scalar_eq] in H;
         solve [ reflexivity
               | apply Bool.eqb_prop in H; congruence
               | apply Z.eqb_eq in H; congruence
               | apply String.eqb_eq in H; congruence ]).
  destruct b as [| | | | | l2 |]; try discriminate H.
    rewrite deep_compare_list in H.
    apply andb_true_iff in H. destruct H as [L A]. apply Nat.eqb_eq in L.
    f_equal. apply plain_list in Pa.
    apply (list_matches_eq l1); [| exact L | exact A].
    rewrite Forall_forall in IH, Pa |- *. intros x Hx. apply IH; auto.
Qed.

Lemma plain_well_formed_nan_free (a : value) :
  plain a -> well_formed a /\ nan_free a.
Proof.
  induction a as [| b1 | n1 | x1 | s1 | l1 IH | d1 IH] using value_nested_ind;
    intros Pa; try (destruct Pa; fail); try (split; exact I).
  apply plain_list in Pa.
  rewrite well_formed_list, nan_free_list.
  rewrite Forall_forall in IH, Pa.
  split; apply Forall_forall; intros x Hx; apply (IH x Hx (Pa x Hx)).
Qed.

End DeepCompare.

(** X8. [deep_compare] is an equivalence on values without NaN: it is
    transitive on all values, symmetric on all values whose dicts have
    distinct keys (as every Python dict has), and reflexive on those
    that hold no NaN, while a NaN makes a value differ from itself. *)
Theorem deep_compare_equivalence :
  (forall a, PyValue.well_formed a -> PyValue.nan_free a ->
             PyValue.deep_compare a a = true)
  /\ (forall a b, PyValue.well_formed a -> PyValue.well_formed b ->
                  PyValue.deep_compare a b = PyValue.deep_compare b a)
  /\ (forall a b c,
        PyValue.deep_compare a b = true -> PyValue.deep_compare b c = true ->
        PyValue.deep_compare a c = true)
  /\ (forall x, PrimFloat.is_nan x = true ->
                PyValue.deep_compare (PyValue.VFloat x) (PyValue.VFloat x) = false).
Proof.
  split; [| split; [| split]].
  - exact deep_compare_refl.
  - intros a b Wa Wb.
    destruct (PyValue.deep_compare a b) eqn:Hab;
      destruct (PyValue.deep_compare b a) eqn:Hba; try reflexivity.
    + apply deep_compare_true_sym in Hab; [congruence | assumption | assumption].
    + apply deep_compare_true_sym in Hba; [congruence | assumption | assumption].
  - intros a b c. apply deep_compare_trans.
  - intros x Hnan. simpl. unfold PrimFloat.is_nan in Hnan.
    apply negb_true_iff in Hnan. exact Hnan.
Qed.

Lemma deep_compare_equivalence_witness :
  PyValue.deep_compare ValueSamples.scored ValueSamples.scored = true.
Proof.
  apply (proj1 deep_compare_equivalence).
  - simpl. repeat constructor; simpl; intuition discriminate.
  - simpl. repeat split.
Defined.

(** X9. On values built from [None], booleans, integers, strings and
    lists, [deep_compare] decides equality: it answers [True] exactly
    when the two values are the same. *)
Theorem deep_compare_decides_plain_equality (a b : PyValue.value) :
  PyValue.plain a ->
  (PyValue.deep_compare a b = true <-> a = b).
Proof.
  intros Pa. split.
  - apply deep_compare_plain_eq. exact Pa.
  - intros <-. destruct (plain_well_formed_nan_free a Pa) as [Wa Na].
    apply deep_compare_refl; assumption.
Qed.

Lemma deep_compare_decides_plain_equality_witness :
  PyValue.deep_compare (PyValue.VList [PyValue.VInt 1; PyValue.VStr "a"])
    (PyValue.VList [PyValue.VInt 1; PyValue.VStr "a"]) = true
  /\ PyValue.deep_compare (PyValue.VInt 1) (PyValue.VBool true) <> true.
Proof.
  split.
  - apply (deep_compare_decides_plain_equality
             (PyValue.VList [PyValue.VInt 1; PyValue.VStr "a"])).
    + simpl. repeat split.
    + reflexivity.
  - intros E.
    apply (deep_compare_decides_plain_equality (PyValue.VInt 1)) in E.
    + discriminate E.
    + exact I.
Defined.

(** X10. The order in which two dicts were filled does not matter: a
    dict compares equal to every dict that holds the same entries in
    another order, provided no NaN is among the values. *)
Theorem deep_compare_ignores_dict_order
    (d1 d2 : list (string * PyValue.value)) :
  PyValue.well_formed (PyValue.VDict d1) ->
  PyValue.nan_free (PyValue.VDict d1) ->
  Permutation d1 d2 ->
  PyValue.deep_compare (PyValue.VDict d1) (PyValue.VDict d2) = true.
Proof.
  intros W1 N1 Hperm.
  rewrite ValueFacts.deep_compare_dict.
  apply ValueFacts.well_formed_dict in W1. destruct W1 as [Nd1 W1].
  apply ValueFacts.nan_free_dict in N1.
  assert (Nd2 : NoDup (PyValue.keys d2)).
  { apply (Permutation_NoDup (l := PyValue.keys d1)); [| exact Nd1].
    unfold PyValue.keys. apply Permutation_map. exact Hperm. }
  apply andb_true_iff. split.
  - apply ValueFacts.keys_equal_spec. split.
    + apply Permutation_length. exact Hperm.
    + intros k Hk. unfold PyValue.keys in *.
      eapply Permutation_in; [apply Permutation_map; exact Hperm | exact Hk].
  - apply ValueFacts.dict_matches_spec. intros k v Hin. exists v. split.
    + apply ValueFacts.In_getitem; [exact Nd2 |].
      eapply Permutation_in; eassumption.
    + rewrite Forall_forall in W1, N1.
      apply deep_compare_refl; [apply (W1 (k, v) Hin) | apply (N1 (k, v) Hin)].
Qed.

Lemma deep_compare_ignores_dict_order_witness :
  PyValue.deep_compare ValueSamples.prompt ValueSamples.prompt_reordered = true.
Proof.
  apply deep_compare_ignores_dict_order.
  - simpl. repeat constructor; simpl; intuition discriminate.
  - simpl. repeat split.
  - symmetry. apply (Permutation_cons_append [_; _]).
Defined.

(** The order of a list does matter. *)
Example deep_compare_list_order :
  PyValue.deep_compare
    (PyValue.VList [PyValue.VInt 1; PyValue.VInt 2])
    (PyValue.VList [PyValue.VInt 2; PyValue.VInt 1]) = false.
Proof. reflexivity. Qed.

(* ------------------------------------------------------------------ *)
(** ** The searches for the supported tokens and beams *)

Module SearchFacts.

Import DifferentBeams.

Lemma range_count (start stop : Z) :
  range start stop 1 = range_from (Z.to_nat (stop - start)) start 1.
Proof.
  unfold range. replace (stop - start + 1 - 1) with (stop - start) by lia.
  rewrite Z.div_1_r. reflexivity.
Qed.

Lemma In_range_from_1 (n : nat) :
  forall s y, In y (range_from n s 1) <-> s <= y < s + Z.of_nat n.
Proof.
  induction n as [| n IH]; intros s y.
  - simpl. lia.
  - cbn [range_from In]. rewrite IH. lia.
Qed.

(** The count of the steps of ten up to [until], and the last of them. *)
Lemma coarse_count (until : Z) :
  1 <= until ->
  exists n : nat,
    range 1 (until + 1) 10 = range_from (S n) 1 10
    /\ 1 + 10 * Z.of_nat n <= until < 1 + 10 * Z.of_nat n + 10
    /\ 1 + 10 * Z.of_nat n = 1 + 10 * ((until - 1) / 10).
Proof.
  intros Hu. unfold range.
  replace (until + 1 - 1 + 10 - 1) with (until + 9) by lia.
  pose proof (Z.div_mod (until + 9) 10 ltac:(lia)) as Hdiv.
  pose proof (Z.mod_pos_bound (until + 9) 10 ltac:(lia)) as Hmod.
  pose proof (Z.div_mod (until - 1) 10 ltac:(lia)) as Hdiv'.
  pose proof (Z.mod_pos_bound (until - 1) 10 ltac:(lia)) as Hmod'.
  set (q := (until + 9) / 10) in *.
  set (q' := (until - 1) / 10) in *.
  assert (Hq : 1 <= q) by lia.
  exists (Z.to_nat (q - 1)). split; [| split].
  - replace (Z.to_nat q) with (S (Z.to_nat (q - 1))) by lia. reflexivity.
  - rewrite Z2Nat.id by lia. lia.
  - rewrite Z2Nat.id by lia. lia.
Qed.

Lemma coarse_empty (until : Z) :
  until <= 0 -> range 1 (until + 1) 10 = [].
Proof.
  intros Hu. unfold range.
  replace (until + 1 - 1 + 10 - 1) with (until + 9) by lia.
  assert (Hq : (until + 9) / 10 < 1).
  { apply Z.div_lt_upper_bound; lia. }
  replace (Z.to_nat ((until + 9) / 10)) with O by lia. reflexivity.
Qed.

Section Tokens.

Variable same_top_k : Z -> Z -> bool.
Variable amount_beam : Z.
Variable until_token : Z.

(** The first loop over [n] steps of ten from [s]. *)
Lemma tokens_coarse_end (n : nat) :
  forall (s : Z) (prev : option Z),
    s + 10 * Z.of_nat n <= until_token + 10 ->
    match tokens_coarse same_top_k amount_beam until_token
            (range_from n s 10) prev with
    | Returned v => v = until_token /\ same_top_k v amount_beam = true
    | Left None => n = O /\ prev = None
    | Left (Some a) =>
        (n = O /\ prev = Some a)
        \/ (exists x, a = x - 1 /\ s <= x <= until_token
                      /\ same_top_k x amount_beam = false
                      /\ (x = s \/ (s + 10 <= x
                                    /\ same_top_k (x - 10) amount_beam = true)))
        \/ (n <> O /\ a = s + 10 * Z.of_nat n - 10 /\ a < until_token
            /\ same_top_k a amount_beam = true)
    end.
Proof.
  induction n as [| n IH]; intros s prev Hlast.
  - simpl. destruct prev; auto.
  - cbn [range_from tokens_coarse].
    destruct (same_top_k s amount_beam) eqn:Hs; cbn [negb].
    + destruct (until_token <=? s) eqn:Hu.
      * split; [lia | exact Hs].
      * specialize (IH (s + 10) (Some s) ltac:(lia)).
        destruct (tokens_coarse same_top_k amount_beam until_token
                    (range_from n (s + 10) 10) (Some s)) as [v | [a |]].
        -- exact IH.
        -- right.
           destruct IH as [[-> [= <-]]
                          | [[x [Ha [Hx [Hf Hp]]]] | [Hn [Ha [Hlt Hsa]]]]].
           ++ right. split; [discriminate |]. split; [lia |].
              split; [lia | exact Hs].
           ++ left. exists x. split; [exact Ha |]. split; [lia |].
              split; [exact Hf |]. right.
              destruct Hp as [-> | [Hge Hp]].
              ** split; [lia |].
                 replace (s + 10 - 10) with s by lia. exact Hs.
              ** split; [lia | exact Hp].
           ++ right. split; [discriminate |]. split; [lia |].
              split; assumption.
        -- destruct IH as [_ [=]].
    + right. left. exists s. split; [reflexivity |]. split; [lia |].
      split; [exact Hs | left; reflexivity].
Qed.

(** The second loop over [m] steps of one from [s], when one of them
    stops it. *)
Lemma tokens_fine_end (m : nat) :
  forall s : Z,
    1 <= s <= until_token ->
    (exists y, s <= y < s + Z.of_nat m
               /\ (same_top_k y amount_beam = false \/ until_token <= y)) ->
    exists r,
      tokens_fine same_top_k amount_beam until_token (range_from m s 1) = Ok r
      /\ s - 1 <= r <= until_token
      /\ ((r = until_token /\ same_top_k until_token amount_beam = true)
          \/ (r < until_token /\ same_top_k (r + 1) amount_beam = false))
      /\ (forall y, s <= y <= r -> same_top_k y amount_beam = true).
Proof.
  induction m as [| m IH]; intros s Hs [y [Hy Hstop]]; [lia |].
  cbn [range_from tokens_fine].
  destruct (same_top_k s amount_beam) eqn:Hss; cbn [negb].
  - destruct (until_token <=? s) eqn:Hu.
    + exists s. assert (s = until_token) by lia. subst s.
      split; [reflexivity |]. split; [lia |]. split; [left; auto |].
      intros z Hz. assert (z = until_token) by lia. subst z. exact Hss.
    + destruct (IH (s + 1) ltac:(lia)) as [r [Hr [Hb [Hreason Hwin]]]].
      * exists y. split; [| exact Hstop].
        assert (y <> s) by (intros ->; destruct Hstop; [congruence | lia]).
        lia.
      * exists r. split; [exact Hr |]. split; [lia |]. split; [exact Hreason |].
        intros z Hz. destruct (Z.eq_dec z s) as [-> | Hne]; [exact Hss |].
        apply Hwin. lia.
  - exists (s - 1). split; [reflexivity |]. split; [lia |]. split.
    + right. split; [lia |]. replace (s - 1 + 1) with s by lia. exact Hss.
    + intros z Hz. lia.
Qed.

(** Where the search ends, for any comparison. *)
Lemma find_tokens_end :
  1 <= until_token ->
  exists r s,
    find_amount_tokens_supported same_top_k amount_beam until_token = Ok r
    /\ 1 <= s /\ s - 1 <= r <= until_token
    /\ ((r = until_token /\ same_top_k until_token amount_beam = true)
        \/ (r < until_token /\ same_top_k (r + 1) amount_beam = false))
    /\ (forall y, s <= y <= r -> same_top_k y amount_beam = true)
    /\ (s = 1 \/ exists z, 1 <= z /\ s - 1 <= z
                           /\ same_top_k z amount_beam = true).
Proof.
  intros Hu. unfold find_amount_tokens_supported.
  destruct (coarse_count until_token Hu) as [n [-> [Hlast _]]].
  pose proof (tokens_coarse_end (S n) 1 None ltac:(lia)) as Hc.
  destruct (tokens_coarse same_top_k amount_beam until_token
              (range_from (S n) 1 10) None) as [v | [a |]].
  - destruct Hc as [-> Hv]. exists until_token, until_token.
    split; [reflexivity |]. split; [lia |]. split; [lia |].
    split; [left; auto |]. split.
    + intros y Hy. assert (y = until_token) by lia. subst y. exact Hv.
    + right. exists until_token. split; [lia |]. split; [lia | exact Hv].
  - rewrite range_count.
    destruct Hc as [[[=] _] | [[x [Ha [Hx [Hf Hp]]]] | [_ [Ha [Hlt Hsa]]]]].
    + destruct (tokens_fine_end (Z.to_nat (a + 10 - Z.max (a - 10) 1))
                  (Z.max (a - 10) 1) ltac:(lia))
        as [r [Hr [Hb [Hreason Hwin]]]].
      * exists x. split; [lia |]. left. exact Hf.
      * exists r, (Z.max (a - 10) 1). split; [exact Hr |].
        split; [lia |]. split; [exact Hb |]. split; [exact Hreason |].
        split; [exact Hwin |].
        destruct Hp as [-> | [Hge Hp]]; [left; lia |].
        right. exists (x - 10). split; [lia |]. split; [lia | exact Hp].
    + destruct (tokens_fine_end (Z.to_nat (a + 10 - Z.max (a - 10) 1))
                  (Z.max (a - 10) 1) ltac:(lia))
        as [r [Hr [Hb [Hreason Hwin]]]].
      * exists until_token. split; [lia |]. right. lia.
      * exists r, (Z.max (a - 10) 1). split; [exact Hr |].
        split; [lia |]. split; [exact Hb |]. split; [exact Hreason |].
        split; [exact Hwin |].
        right. exists a. split; [lia |]. split; [lia | exact Hsa].
  - destruct Hc as [[=] _].
Qed.

End Tokens.

End SearchFacts.

(** X11. [find_amount_tokens_supported] with a limit of at least one
    token always returns a number [r] between 0 and the limit, whatever
    the comparison answers: either [r] is the limit and the comparison
    holds there, or the comparison fails at [r + 1].  With a limit below
    one the first loop never runs and the function fails on its unbound
    [amount_tokens]. *)
Theorem find_amount_tokens_supported_returns
    (same_top_k : Z -> Z -> bool) (amount_beam until_token : Z) :
  (1 <= until_token ->
   exists r,
     DifferentBeams.find_amount_tokens_supported same_top_k amount_beam until_token =
     DifferentBeams.Ok r
     /\ 0 <= r <= until_token
     /\ ((r = until_token /\ same_top_k until_token amount_beam = true)
         \/ (r < until_token /\ same_top_k (r + 1) amount_beam = false)))
  /\ (until_token <= 0 ->
      DifferentBeams.find_amount_tokens_supported same_top_k amount_beam until_token =
      DifferentBeams.Raise (DifferentBeams.UnboundLocalError "amount_tokens")).
Proof.
  split.
  - intros Hu.
    destruct (SearchFacts.find_tokens_end same_top_k amount_beam until_token Hu)
      as [r [s [Hr [Hs [Hb [Hreason _]]]]]].
    exists r. split; [exact Hr |]. split; [lia | exact Hreason].
  - intros Hu. unfold DifferentBeams.find_amount_tokens_supported.
    rewrite SearchFacts.coarse_empty by exact Hu. reflexivity.
Qed.

Lemma find_amount_tokens_supported_returns_witness :
  exists r,
    DifferentBeams.find_amount_tokens_supported
      (fun tokens beams => tokens <=? 37) 4 DifferentBeams.max_tokens =
    DifferentBeams.Ok r
    /\ 0 <= r <= DifferentBeams.max_tokens.
Proof.
  destruct (proj1 (find_amount_tokens_supported_returns
                     (fun tokens beams => tokens <=? 37) 4
                     DifferentBeams.max_tokens))
    as [r [Hr [Hb _]]].
  - vm_compute. discriminate.
  - exists r. split; [exact Hr | exact Hb].
Defined.

(** X12. When the two runs agree on the first [N] tokens and on no
    longer prefix, [find_amount_tokens_supported] returns [N], or the
    limit when [N] is beyond it. *)
Theorem find_amount_tokens_supported_prefix
    (same_top_k : Z -> Z -> bool) (amount_beam until_token N : Z) :
  (forall t, 1 <= t -> (same_top_k t amount_beam = true <-> t <= N)) ->
  0 <= N -> 1 <= until_token ->
  DifferentBeams.find_amount_tokens_supported same_top_k amount_beam until_token =
  DifferentBeams.Ok (Z.min N until_token).
Proof.
  intros Hmono HN Hu.
  destruct (SearchFacts.find_tokens_end same_top_k amount_beam until_token Hu)
    as [r [s [Hr [Hs [Hb [Hreason [Hwin Hstart]]]]]]].
  rewrite Hr. f_equal.
  assert (HsN : s <= N + 1).
  { destruct Hstart as [-> | [z [Hz1 [Hz2 Hz]]]]; [lia |].
    apply Hmono in Hz; lia. }
  destruct Hreason as [[-> Hsame] | [Hlt Hfail]].
  - apply Hmono in Hsame; lia.
  - assert (HrN : N <= r).
    { destruct (Z.le_gt_cases (r + 1) N) as [Hle | Hgt]; [| lia].
      apply Hmono in Hle; [congruence | lia]. }
    destruct (Z.le_gt_cases s r) as [Hsr | Hrs].
    + specialize (Hwin r ltac:(lia)). apply Hmono in Hwin; lia.
    + lia.
Qed.

Lemma find_amount_tokens_supported_prefix_witness :
  DifferentBeams.find_amount_tokens_supported
    (fun tokens beams => tokens <=? 37) 4 DifferentBeams.max_tokens =
  DifferentBeams.Ok 37.
Proof.
  apply (find_amount_tokens_supported_prefix
           (fun tokens beams => tokens <=? 37) 4 DifferentBeams.max_tokens 37).
  - intros t Ht. apply Z.leb_le.
  - lia.
  - vm_compute. discriminate.
Defined.

(** A difference the steps of ten jump over goes unnoticed when the
    runs agree again on the last window. *)
Example find_amount_tokens_supported_skips :
  DifferentBeams.find_amount_tokens_supported
    (fun tokens beams => negb (tokens =? 3)) 4 30 = DifferentBeams.Ok 30.
Proof. vm_compute. reflexivity. Qed.

Section Beams.

Import DifferentBeams.

Variable same_top_k : Z -> Z -> bool.
Variable until_token : Z.

Definition differs (amount_beams : Z) : bool :=
  negb (same_top_k until_token amount_beams).

(** A loop ends with the first number of beams at which the comparison
    fails; without one it ends with [True], or with what [result] held
    when it never ran. *)
Lemma beams_loop_first (steps : list Z) :
  forall init,
    beams_loop same_top_k until_token steps init =
    match find differs steps with
    | Some g => Some (PyInt g)
    | None =>
        match steps with
        | [] => init
        | _ :: _ => Some PyTrue
        end
    end.
Proof.
  induction steps as [| x steps IH]; intros init; [reflexivity |].
  cbn [beams_loop find]. unfold differs at 1.
  destruct (negb (same_top_k until_token x)); [reflexivity |].
  rewrite IH. destruct (find differs steps); [reflexivity |].
  destruct steps; reflexivity.
Qed.

Lemma find_differs_step_1 (N : Z) (n : nat) :
  (forall b, 0 <= b -> (same_top_k until_token b = true <-> b <= N)) ->
  forall s, 0 <= s <= N + 1 ->
    find differs (range_from n s 1) =
    if N + 1 <? s + Z.of_nat n then Some (N + 1) else None.
Proof.
  intros Hmono. induction n as [| n IH]; intros s Hs.
  - simpl. destruct (Z.ltb_spec (N + 1) (s + 0)); [lia | reflexivity].
  - cbn [range_from find]. unfold differs at 1.
    destruct (same_top_k until_token s) eqn:Hss; cbn [negb].
    + apply Hmono in Hss; [| lia]. rewrite IH by lia.
      destruct (Z.ltb_spec (N + 1) (s + 1 + Z.of_nat n));
        destruct (Z.ltb_spec (N + 1) (s + Z.of_nat (S n)));
        try reflexivity; lia.
    + assert (s = N + 1).
      { destruct (Z.le_gt_cases s N) as [Hle | Hgt]; [| lia].
        apply Hmono in Hle; [congruence | lia]. }
      subst s. destruct (Z.ltb_spec (N + 1) (N + 1 + Z.of_nat (S n)));
        [reflexivity | lia].
Qed.

Lemma find_differs_step_10 (N : Z) (n : nat) :
  (forall b, 0 <= b -> (same_top_k until_token b = true <-> b <= N)) ->
  forall s, 0 <= s ->
    match find differs (range_from n s 10) with
    | Some x =>
        N < x /\ s <= x <= s + 10 * Z.of_nat n - 10 /\ (x = s \/ x - 10 <= N)
    | None => n = O \/ s + 10 * Z.of_nat n - 10 <= N
    end.
Proof.
  intros Hmono. induction n as [| n IH]; intros s Hs.
  - simpl. left. reflexivity.
  - cbn [range_from find]. unfold differs at 1.
    destruct (same_top_k until_token s) eqn:Hss; cbn [negb].
    + apply Hmono in Hss; [| lia]. specialize (IH (s + 10) ltac:(lia)).
      destruct (find differs (range_from n (s + 10) 10)) as [x |].
      * destruct IH as [H1 [H2 H3]]. split; [lia |]. split; [lia |].
        right. destruct H3 as [-> | H3]; lia.
      * right. destruct IH as [-> | IH]; lia.
    + split; [| split; [lia | left; reflexivity]].
      destruct (Z.le_gt_cases s N) as [Hle | Hgt]; [| lia].
      apply Hmono in Hle; [congruence | lia].
Qed.

End Beams.

(** X13. [find_amount_beams_supported] with a limit of at least one beam
    returns either [True] or a number of beams at which the comparison
    fails.  It returns [True] only when the comparison holds at every
    step of ten up to the limit and at 0 to 10 beams: after a first loop
    without failure [result] is [True], which counts as 1, so the second
    loop looks at 0 to 10 beams whatever the limit is.  With a limit
    below one the function fails on its unbound [result]. *)
Theorem find_amount_beams_supported_returns
    (same_top_k : Z -> Z -> bool) (until_beam : Z) (until_token : option Z) :
  let tokens :=
    match until_token with
    | None => DifferentBeams.amount_of_tokens
    | Some t => t
    end in
  (1 <= until_beam ->
   exists r,
     DifferentBeams.find_amount_beams_supported same_top_k until_beam until_token =
     DifferentBeams.Ok r
     /\ match r with
        | DifferentBeams.PyTrue =>
            (forall b, In b (DifferentBeams.range 1 (until_beam + 1) 10) ->
                       same_top_k tokens b = true)
            /\ (forall b, 0 <= b <= 10 -> same_top_k tokens b = true)
        | DifferentBeams.PyInt g => 0 <= g /\ same_top_k tokens g = false
        end)
  /\ (until_beam <= 0 ->
      DifferentBeams.find_amount_beams_supported same_top_k until_beam until_token =
      DifferentBeams.Raise (DifferentBeams.UnboundLocalError "result")).
Proof.
  intros tokens. unfold DifferentBeams.find_amount_beams_supported.
  fold tokens. split.
  - intros Hu.
    destruct (SearchFacts.coarse_count until_beam Hu) as [n [Hrange _]].
    rewrite beams_loop_first.
    remember (DifferentBeams.range 1 (until_beam + 1) 10) as steps eqn:Hsteps.
    destruct (find (differs same_top_k tokens) steps) as [x |] eqn:Hcoarse.
    + cbn [DifferentBeams.as_int]. rewrite beams_loop_first.
      apply find_some in Hcoarse as Hx. destruct Hx as [Hin Hdx].
      assert (Hx1 : 1 <= x).
      { rewrite Hrange in Hin. clear - Hin.
        assert (G : forall n s, In x (DifferentBeams.range_from n s 10) -> s <= x).
        { clear. induction n as [| n IH]; intros s H; [destruct H |].
          destruct H as [<- | H]; [lia |]. apply IH in H. lia. }
        apply (G _ _ Hin). }
      rewrite SearchFacts.range_count.
      destruct (find (differs same_top_k tokens)
                  (DifferentBeams.range_from
                     (Z.to_nat (x + 10 - Z.max (x - 10) 0)) (Z.max (x - 10) 0) 1))
        as [g |] eqn:Hfine.
      * exists (DifferentBeams.PyInt g). split; [reflexivity |].
        apply find_some in Hfine. destruct Hfine as [Hg Hdg].
        apply SearchFacts.In_range_from_1 in Hg.
        split; [lia |]. unfold differs in Hdg.
        apply negb_true_iff. exact Hdg.
      * exfalso.
        assert (Hxin : In x (DifferentBeams.range_from
                               (Z.to_nat (x + 10 - Z.max (x - 10) 0))
                               (Z.max (x - 10) 0) 1))
          by (apply SearchFacts.In_range_from_1; lia).
        apply (find_none _ _ Hfine) in Hxin. congruence.
    + destruct steps as [| x0 steps']; [rewrite Hrange in Hsteps; discriminate |].
      cbn [DifferentBeams.as_int].
      rewrite beams_loop_first. rewrite SearchFacts.range_count.
      change (Z.max (1 - 10) 0) with 0. change (Z.to_nat (1 + 10 - 0)) with 11%nat.
      destruct (find (differs same_top_k tokens)
                  (DifferentBeams.range_from 11 0 1)) as [g |] eqn:Hfine.
      * exists (DifferentBeams.PyInt g). split; [reflexivity |].
        apply find_some in Hfine. destruct Hfine as [Hg Hdg].
        apply SearchFacts.In_range_from_1 in Hg.
        split; [lia |]. unfold differs in Hdg.
        apply negb_true_iff. exact Hdg.
      * exists DifferentBeams.PyTrue. split; [reflexivity |]. split.
        -- intros b Hb. apply (find_none _ _ Hcoarse) in Hb.
           unfold differs in Hb. apply negb_false_iff. exact Hb.
        -- intros b Hb.
           assert (Hin : In b (DifferentBeams.range_from 11 0 1))
             by (apply SearchFacts.In_range_from_1; lia).
           apply (find_none _ _ Hfine) in Hin.
           unfold differs in Hin. apply negb_false_iff. exact Hin.
  - intros Hu. rewrite SearchFacts.coarse_empty by exact Hu. reflexivity.
Qed.

Lemma find_amount_beams_supported_returns_witness :
  exists r,
    DifferentBeams.find_amount_beams_supported
      (fun tokens beams => beams <=? 12) 15 None = DifferentBeams.Ok r.
Proof.
  destruct (proj1 (find_amount_beams_supported_returns
                     (fun tokens beams => beams <=? 12) 15 None))
    as [r [Hr _]].
  - lia.
  - exists r. exact Hr.
Defined.

(** X14. When the two runs agree for up to [N] beams and for no more,
    [find_amount_beams_supported] returns [N + 1], the first number of
    beams that fails, unless [N] reaches both 10 and the last step of
    ten that is within the limit: then it returns [True], also when [N]
    is below the limit. *)
Theorem find_amount_beams_supported_prefix
    (same_top_k : Z -> Z -> bool) (until_beam N : Z) (until_token : option Z) :
  let tokens :=
    match until_token with
    | None => DifferentBeams.amount_of_tokens
    | Some t => t
    end in
  (forall b, 0 <= b -> (same_top_k tokens b = true <-> b <= N)) ->
  0 <= N -> 1 <= until_beam ->
  DifferentBeams.find_amount_beams_supported same_top_k until_beam until_token =
  DifferentBeams.Ok
    (if (10 <=? N) && (1 + 10 * ((until_beam - 1) / 10) <=? N)
     then DifferentBeams.PyTrue
     else DifferentBeams.PyInt (N + 1)).
Proof.
  intros tokens Hmono HN Hu.
  unfold DifferentBeams.find_amount_beams_supported. fold tokens.
  destruct (SearchFacts.coarse_count until_beam Hu) as [n [Hrange [Hlast Hdiv]]].
  rewrite <- Hdiv. rewrite Hrange. rewrite beams_loop_first.
  pose proof (find_differs_step_10 same_top_k tokens N (S n) Hmono 1 ltac:(lia))
    as Hcoarse.
  destruct (find (differs same_top_k tokens)
              (DifferentBeams.range_from (S n) 1 10)) as [x |].
  - destruct Hcoarse as [HxN [Hx1 Hprev]].
    cbn [DifferentBeams.as_int]. rewrite beams_loop_first.
    rewrite SearchFacts.range_count.
    rewrite (find_differs_step_1 same_top_k tokens N _ Hmono) by lia.
    destruct (Z.ltb_spec (N + 1)
                (Z.max (x - 10) 0
                 + Z.of_nat (Z.to_nat (x + 10 - Z.max (x - 10) 0)))); [| lia].
    assert (Hlt : N < 1 + 10 * Z.of_nat n) by lia.
    destruct (Z.leb_spec (1 + 10 * Z.of_nat n) N); [lia |].
    rewrite andb_false_r. reflexivity.
  - destruct Hcoarse as [[=] | Hall].
    cbn [DifferentBeams.range_from DifferentBeams.as_int].
    rewrite beams_loop_first. rewrite SearchFacts.range_count.
    change (Z.max (1 - 10) 0) with 0. change (Z.to_nat (1 + 10 - 0)) with 11%nat.
    rewrite (find_differs_step_1 same_top_k tokens N _ Hmono) by lia.
    destruct (Z.leb_spec (1 + 10 * Z.of_nat n) N); [| lia].
    rewrite andb_true_r.
    destruct (Z.ltb_spec (N + 1) (0 + Z.of_nat 11));
      destruct (Z.leb_spec 10 N); try lia; reflexivity.
Qed.

Lemma find_amount_beams_supported_prefix_witness :
  DifferentBeams.find_amount_beams_supported
    (fun tokens beams => beams <=? 12) 15 None = DifferentBeams.Ok DifferentBeams.PyTrue
  /\ DifferentBeams.find_amount_beams_supported
       (fun tokens beams => beams <=? 7) 15 None =
     DifferentBeams.Ok (DifferentBeams.PyInt 8).
Proof.
  split.
  - apply (find_amount_beams_supported_prefix
             (fun tokens beams => beams <=? 12) 15 12 None).
    + intros b Hb. apply Z.leb_le.
    + lia.
    + lia.
  - apply (find_amount_beams_supported_prefix
             (fun tokens beams => beams <=? 7) 15 7 None).
    + intros b Hb. apply Z.leb_le.
    + lia.
    + lia.
Defined.

(* ------------------------------------------------------------------ *)
(** ** The recorded column and the prompt *)

Module RunFacts.

Import DifferentBeams DifferentBeamsRun.

Lemma set_item_length (column : list Z) (i : nat) (v : Z) :
  length (set_item column i v) = length column.
Proof.
  revert i. induction column as [| x column IH]; intros [| i]; simpl;
    try reflexivity. rewrite IH. reflexivity.
Qed.

Lemma set_item_nth_same (column : list Z) (i : nat) (v d : Z) :
  (i < length column)%nat -> nth i (set_item column i v) d = v.
Proof.
  revert i. induction column as [| x column IH]; intros i Hi;
    [simpl in Hi; lia |].
  destruct i as [| i]; [reflexivity |].
  cbn [set_item nth]. apply IH. simpl in Hi. lia.
Qed.

Lemma set_item_nth_other (column : list Z) (i j : nat) (v d : Z) :
  i <> j -> nth j (set_item column i v) d = nth j column d.
Proof.
  revert i j. induction column as [| x column IH]; intros i j Hij.
  - destruct i; reflexivity.
  - destruct i as [| i], j as [| j]; try reflexivity; try congruence.
    cbn [set_item nth]. apply IH. congruence.
Qed.

Lemma fill_from_length (column : list Z) (i : nat) (v : Z) :
  length (fill_from column i v) = length column.
Proof.
  revert i. induction column as [| x column IH]; intros [| i];
    cbn [fill_from length]; try reflexivity.
  - rewrite repeat_length. reflexivity.
  - rewrite IH. reflexivity.
Qed.

Lemma fill_from_nth_before (column : list Z) (i j : nat) (v d : Z) :
  (j < i)%nat -> nth j (fill_from column i v) d = nth j column d.
Proof.
  revert i j. induction column as [| x column IH]; intros i j Hj.
  - destruct i; reflexivity.
  - destruct i as [| i]; [lia |]. destruct j as [| j]; [reflexivity |].
    cbn [fill_from nth]. apply IH. lia.
Qed.

Lemma fill_from_nth_after (column : list Z) (i j : nat) (v d : Z) :
  (i <= j < length column)%nat -> nth j (fill_from column i v) d = v.
Proof.
  revert i j. induction column as [| x column IH]; intros i j Hj;
    [simpl in Hj; lia |].
  destruct i as [| i].
  - cbn [fill_from]. apply nth_repeat_lt. exact (proj2 Hj).
  - destruct j as [| j]; [lia |]. cbn [fill_from nth]. apply IH.
    simpl in Hj. lia.
Qed.

Section Column.

Variable same_top_k : Z -> Z -> bool.

(** The entries before [p] hold the search results of [p] numbers of
    beams, none of them 0. *)
Definition recorded (column : list Z) (p : nat) : Prop :=
  forall i, (i < p)%nat ->
    1 <= nth i column (-1) <= max_tokens
    /\ find_amount_tokens_supported same_top_k (Z.of_nat i + 1) max_tokens =
       Ok (nth i column (-1)).

Lemma record_end (n : nat) :
  forall (p : nat) (column : list Z),
    length column = (p + n)%nat ->
    recorded column p ->
    exists column' k,
      record same_top_k (range_from n (Z.of_nat p + 1) 1) column = Ok column'
      /\ length column' = (p + n)%nat
      /\ (k <= p + n)%nat
      /\ recorded column' k
      /\ (forall j, (k <= j < p + n)%nat -> nth j column' (-1) = 0)
      /\ ((k < p + n)%nat ->
          find_amount_tokens_supported same_top_k (Z.of_nat k + 1) max_tokens =
          Ok 0).
Proof.
  induction n as [| n IH]; intros p column Hlen Hrec.
  - exists column, p. cbn [range_from record].
    split; [reflexivity |]. split; [exact Hlen |]. split; [lia |].
    split; [exact Hrec |]. split; intros; lia.
  - cbn [range_from record].
    destruct (SearchFacts.find_tokens_end same_top_k (Z.of_nat p + 1) max_tokens
                ltac:(vm_compute; discriminate))
      as [r [s [Hr [Hs [Hb _]]]]].
    rewrite Hr.
    replace (Z.to_nat (Z.of_nat p + 1 - 1)) with p by lia.
    replace (Z.to_nat (Z.of_nat p + 1)) with (S p) by lia.
    destruct (Z.eqb_spec r 0) as [-> | Hnz].
    + exists (fill_from (set_item column p 0) (S p) 0), p.
      split; [reflexivity |].
      split; [rewrite fill_from_length, set_item_length; exact Hlen |].
      split; [lia |]. split; [| split].
      * intros i Hi.
        rewrite fill_from_nth_before by lia.
        rewrite set_item_nth_other by lia. apply Hrec. exact Hi.
      * intros j Hj. destruct (Nat.eq_dec j p) as [-> | Hne].
        -- rewrite fill_from_nth_before by lia.
           apply set_item_nth_same. lia.
        -- apply fill_from_nth_after. rewrite set_item_length. lia.
      * intros _. exact Hr.
    + destruct (IH (S p) (set_item column p r)) as [column' [k H]].
      * rewrite set_item_length. lia.
      * intros i Hi. destruct (Nat.eq_dec i p) as [-> | Hne].
        -- rewrite set_item_nth_same by lia. split; [lia | exact Hr].
        -- rewrite set_item_nth_other by lia. apply Hrec. lia.
      * exists column', k.
        replace (Z.of_nat p + 1 + 1) with (Z.of_nat (S p) + 1) by lia.
        replace (p + S n)%nat with (S p + n)%nat by lia. exact H.
Qed.

End Column.

Section Words.

Variable char : Type.
Variable char_eqb : char -> char -> bool.
Variable space : char.
Hypothesis char_eqb_eq : forall a b, char_eqb a b = true <-> a = b.

Lemma split_not_nil (s : list char) : split char char_eqb space s <> [].
Proof.
  induction s as [| c s IH]; simpl; [discriminate |].
  destruct (char_eqb c space); [discriminate |].
  destruct (split char char_eqb space s); discriminate.
Qed.

Lemma join_cons (word : list char) (words : list (list char)) :
  words <> [] ->
  join char space (word :: words) = word ++ space :: join char space words.
Proof. destruct words; [congruence | reflexivity]. Qed.

Lemma join_split (s : list char) :
  join char space (split char char_eqb space s) = s.
Proof.
  induction s as [| c s IH]; [reflexivity |].
  cbn [split]. destruct (char_eqb c space) eqn:E.
  - apply char_eqb_eq in E. subst c.
    rewrite join_cons by apply split_not_nil. rewrite IH. reflexivity.
  - pose proof (split_not_nil s) as Hne.
    destruct (split char char_eqb space s) as [| word words]; [congruence |].
    destruct words as [| w2 words].
    + simpl in *. rewrite IH. reflexivity.
    + rewrite join_cons by discriminate.
      rewrite join_cons in IH by discriminate.
      rewrite <- IH. reflexivity.
Qed.

Lemma split_words_no_space (s : list char) :
  Forall (fun word => ~ In space word) (split char char_eqb space s).
Proof.
  induction s as [| c s IH]; cbn [split].
  - constructor; [intros [] | constructor].
  - destruct (char_eqb c space) eqn:E.
    + constructor; [intros [] | exact IH].
    + assert (Hc : c <> space).
      { intros ->. assert (char_eqb space space = true) by (apply char_eqb_eq; reflexivity).
        congruence. }
      destruct (split char char_eqb space s) as [| word words].
      * constructor; [| constructor]. intros [H | []]. congruence.
      * inversion IH; subst. constructor; [| assumption].
        intros [H | H]; [congruence | contradiction].
Qed.

Lemma join_snoc (words : list (list char)) (word : list char) :
  words <> [] ->
  join char space (words ++ [word]) = join char space words ++ space :: word.
Proof.
  induction words as [| w words IH]; intros Hne; [congruence |].
  destruct words as [| w2 words].
  - reflexivity.
  - change ((w :: w2 :: words) ++ [word]) with (w :: ((w2 :: words) ++ [word])).
    rewrite join_cons by (destruct words; discriminate).
    rewrite IH by discriminate.
    rewrite (join_cons w) by discriminate.
    rewrite <- app_assoc. reflexivity.
Qed.

(** Cutting a text at its last space. *)
Lemma cut_at_last_space (t : list char) :
  (~ In space t /\ join char space (removelast (split char char_eqb space t)) = [])
  \/ (exists word,
        ~ In space word
        /\ t = join char space (removelast (split char char_eqb space t))
               ++ space :: word).
Proof.
  pose proof (join_split t) as Hjoin.
  pose proof (split_words_no_space t) as Hwords.
  destruct (exists_last (split_not_nil t)) as [words [word Hsplit]].
  rewrite Hsplit in *. rewrite removelast_last.
  apply Forall_app in Hwords. destruct Hwords as [_ Hword].
  apply Forall_inv in Hword. rename Hword into Hw.
  destruct words as [| w words].
  - left. simpl in Hjoin. subst t. split; [exact Hw | reflexivity].
  - right. exists word. split; [exact Hw |].
    rewrite join_snoc in Hjoin by discriminate. symmetry. exact Hjoin.
Qed.

End Words.

End RunFacts.

(** X15. For every comparison the column recorded for a prompt is
    complete: it has [max_beams] entries, none keeps the initial -1,
    every entry lies between 0 and [max_tokens], an entry that is not 0
    is the search result for its number of beams, and from the first 0
    on every entry is 0. *)
Theorem results_column_complete (same_top_k : Z -> Z -> bool) :
  exists column,
    DifferentBeamsRun.results_column same_top_k = DifferentBeams.Ok column
    /\ length column = 200%nat
    /\ (forall i, (i < 200)%nat ->
                  0 <= nth i column (-1) <= DifferentBeams.max_tokens)
    /\ (forall i, (i < 200)%nat -> nth i column (-1) <> 0 ->
                  DifferentBeams.find_amount_tokens_supported same_top_k
                    (Z.of_nat i + 1) DifferentBeams.max_tokens =
                  DifferentBeams.Ok (nth i column (-1)))
    /\ (forall i j, (i <= j < 200)%nat ->
                    nth i column (-1) = 0 -> nth j column (-1) = 0).
Proof.
  destruct (RunFacts.record_end same_top_k 200 0 (repeat (-1) 200))
    as [column [k [Hrun [Hlen [Hk [Hrec [Hzero _]]]]]]].
  - apply repeat_length.
  - intros i Hi. lia.
  - exists column. split; [exact Hrun |]. split; [exact Hlen |].
    assert (Hcase : forall i, (i < 200)%nat ->
                      (i < k)%nat \/ nth i column (-1) = 0).
    { intros i Hi. destruct (Nat.lt_ge_cases i k) as [Hlt | Hge]; [left; exact Hlt |].
      right. apply Hzero. simpl. lia. }
    split; [| split].
    + intros i Hi. destruct (Hcase i Hi) as [Hlt | ->].
      * destruct (Hrec i Hlt) as [Hb _]. lia.
      * vm_compute. split; discriminate.
    + intros i Hi Hnz. destruct (Hcase i Hi) as [Hlt | Hz]; [| contradiction].
      apply (Hrec i Hlt).
    + intros i j Hij Hz. destruct (Hcase j ltac:(lia)) as [Hlt | Hj]; [| exact Hj].
      destruct (Hrec i ltac:(lia)) as [Hb _]. lia.
Qed.

(** X16. The prompt a run starts from is the first 50 characters of the
    text cut at their last space: when they hold a space, they are the
    prompt, a space and a word without space; when they hold none, the
    prompt is empty. *)
Theorem example_cut_at_last_space
    (char : Type) (char_eqb : char -> char -> bool) (space : char)
    (text : list char) :
  (forall a b, char_eqb a b = true <-> a = b) ->
  (In space (firstn 50 text) ->
   exists word,
     ~ In space word
     /\ firstn 50 text =
        DifferentBeamsRun.example_of char char_eqb space text ++ space :: word)
  /\ (~ In space (firstn 50 text) ->
      DifferentBeamsRun.example_of char char_eqb space text = []).
Proof.
  intros Heq. unfold DifferentBeamsRun.example_of.
  destruct (RunFacts.cut_at_last_space char char_eqb space Heq (firstn 50 text))
    as [[Hno Hnil] | [word [Hw Ht]]].
  - split; [contradiction | intros _; exact Hnil].
  - split.
    + intros _. exists word. split; assumption.
    + intros Hno. exfalso. apply Hno. rewrite Ht.
      apply in_or_app. right. left. reflexivity.
Qed.

Lemma example_cut_at_last_space_witness :
  DifferentBeamsRun.example_of Ascii.ascii Ascii.eqb TextSamples.blank
    (list_ascii_of_string "Supercalifragilisticexpialidocious") = [].
Proof.
  apply (example_cut_at_last_space Ascii.ascii Ascii.eqb TextSamples.blank
           (list_ascii_of_string "Supercalifragilisticexpialidocious")
           Ascii.eqb_eq).
  vm_compute. intuition discriminate.
Defined.

Example example_of_sample :
  TextSamples.example_of
    "Barack Obama was born in Honolulu, Hawaii, on August 4, 1961" =
  "Barack Obama was born in Honolulu, Hawaii, on"%string.
Proof. vm_compute. reflexivity. Qed.

(** X4. The hash of a syntactic hypothesis never reads its tokens: it is
    fixed by the number of tokens and by the addresses the allocator
    hands out for them.  Two hypotheses with as many tokens hash alike
    under one allocator, and a hypothesis hashes alike under two
    allocators that agree on its first addresses. *)
Theorem syntactic_hypothesis_hash_blind_to_tokens :
  (forall heap a b,
      length (torch.data (SyntacticHypothesis.sequences a)) =
      length (torch.data (SyntacticHypothesis.sequences b)) ->
      SyntacticHypothesis.__hash__ heap a = SyntacticHypothesis.__hash__ heap b)
  /\ (forall heap heap' a,
        (forall k, (k < length (torch.data (SyntacticHypothesis.sequences a)))%nat ->
                   heap k = heap' k) ->
        SyntacticHypothesis.__hash__ heap a = SyntacticHypothesis.__hash__ heap' a).
Proof.
  split.
  - intros heap a b Hlen.
    rewrite !syntactic_hypothesis_hash_of_addresses, Hlen. reflexivity.
  - intros heap heap' a Hagree.
    rewrite !syntactic_hypothesis_hash_of_addresses. f_equal.
    apply map_ext_in. intros k Hk. apply in_seq in Hk.
    rewrite Hagree by lia. reflexivity.
Qed.

Lemma syntactic_hypothesis_hash_blind_to_tokens_witness :
  SyntacticHypothesis.__hash__ Samples.heap_b Samples.h1 =
  SyntacticHypothesis.__hash__ Samples.heap_b Samples.h4.
Proof.
  apply (proj1 syntactic_hypothesis_hash_blind_to_tokens). reflexivity.
Defined.
